(** * ShareSpace compliance API: the request handler of [compliant-api.py]

    A shallow embedding of the single Flask endpoint [check_compliance] and
    of the denylist matcher [contains_blacklisted_word].

    Modelling conventions.
    - Python [str] values are Rocq strings whose characters are the code
      points 0 to 255; [str.lower] and [str.strip] are modelled on that
      range.
    - A value that may be [None] ([request.form.get], [request.files.get])
      is an [option].
    - The handler runs in a small state-and-exception monad over a world
      made of the local file system and the trace of calls to the external
      generative-model service.
    - The external collaborators (temporary-file naming and creation,
      [image.save], [genai.upload_file], [model.generate_content],
      [json.loads]) are parameters of the handler; each of them can raise.
    - Writes to standard output ([print]) are not part of the world; the
      evaluation of [response.text] inside [print(response.text)] is kept,
      because that property access can raise. *)

From Stdlib Require Import String Ascii List Bool ZArith Lia.
From stdpp Require Import gmap strings.

Import ListNotations.
Set Warnings "-register-all".
Local Open Scope list_scope.
Local Open Scope string_scope.

(** ** Python string operations used by the source *)

Module PyStr.

(** [c.lower()] for one character: A-Z map to a-z, the accented capitals
    192-222 (but not the multiplication sign 215) map to 224-254, the rest
    is kept. *)
Definition lower_char (c : ascii) : ascii :=
  let n := N_of_ascii c in
  if ((65 <=? n) && (n <=? 90)
      || (192 <=? n) && (n <=? 222) && negb (n =? 215))%N
  then ascii_of_N (n + 32) else c.

(** [s.lower()] *)
Fixpoint lower (s : string) : string :=
  match s with
  | EmptyString => EmptyString
  | String c s' => String (lower_char c) (lower s')
  end.

(** [s.startswith(w)] *)
Fixpoint startswith (w s : string) : bool :=
  match w, s with
  | EmptyString, _ => true
  | String _ _, EmptyString => false
  | String a w', String b s' => Ascii.eqb a b && startswith w' s'
  end.

(** [w in s]: [w] occurs in [s] as a contiguous substring. *)
Fixpoint str_in (w s : string) : bool :=
  startswith w s ||
  match s with
  | EmptyString => false
  | String _ s' => str_in w s'
  end.

(** [s[n:]] *)
Fixpoint slice_from (n : nat) (s : string) : string :=
  match n, s with
  | O, _ => s
  | S _, EmptyString => EmptyString
  | S n', String _ s' => slice_from n' s'
  end.

(** [sep.join(l)] *)
Fixpoint join (sep : string) (l : list string) : string :=
  match l with
  | [] => ""
  | [x] => x
  | x :: rest => x ++ sep ++ join sep rest
  end.

(** The characters [str.strip()] removes: tab, line feed, vertical tab,
    form feed, carriage return, the four separators 0x1c-0x1f, space, next
    line (0x85) and no-break space (0xa0). *)
Definition is_space (c : ascii) : bool :=
  let n := N_of_ascii c in
  ((9 <=? n) && (n <=? 13) || (28 <=? n) && (n <=? 32)
   || (n =? 133) || (n =? 160))%N.

(** [s.lstrip()] *)
Fixpoint lstrip (s : string) : string :=
  match s with
  | EmptyString => EmptyString
  | String c s' => if is_space c then lstrip s' else s
  end.

(** [s.rstrip()] *)
Fixpoint rstrip (s : string) : string :=
  match s with
  | EmptyString => EmptyString
  | String c s' =>
      match rstrip s' with
      | EmptyString => if is_space c then EmptyString else String c EmptyString
      | r => String c r
      end
  end.

(** [s.strip()] *)
Definition strip (s : string) : string := rstrip (lstrip s).

(** How an f-string renders a value that is a [str] or [None]. *)
Definition fmt (v : option string) : string :=
  match v with
  | None => "None"
  | Some s => s
  end.

(** Truth value of a [str] or [None]: false for [None] and for [""]. *)
Definition truthy (v : option string) : bool :=
  match v with
  | None | Some EmptyString => false
  | Some (String _ _) => true
  end.

End PyStr.

(** ** The denylist matcher (source lines 24-55) *)

Definition blacklist_words : list string :=
  [ "alcohol"; "weed"; "marijuana"; "cannabis"; "vodka"; "whiskey"; "beer";
    "tobacco"; "cigarettes"; "vape"; "e-cigarettes"; "smoking"; "heroin";
    "cocaine"; "meth"; "opioids"; "ecstasy"; "narcotics"; "gambling"; "casino";
    "betting"; "poker"; "lottery"; "nudity"; "porn"; "NSFW";
    "prostitution"; "sex"; "fetish"; "lingerie"; "stripper";
    "naked"; "drugs"; "hashish"; "amphetamine";
    "explosives"; "terrorism"; "extremism"; "illegal"; "sutta"; "daaru";
    "maal"; "charsi"; "ganja"; "nashe"; "chirkut"; "tharki"; "kamina";
    "behenchod"; "madarchod"; "chutiya"; "harami"; "bhosad"; "bakchodi";
    "gaand"; "suar"; "hijra"; "bastard"; "rape"; "molest"; "dalali"; "nanga";
    "lauda"; "kidnap"; "dacoit"; "firangi"; "dhamki"; "suicide"; "murders";
    "lootera"; "darinda"; "lafanga"; "sadakchap"; "gunda"; "nashedi"; "bawali";
    "opium"; "hookah" ].

Definition contains_blacklisted_word (input_string : string) : bool :=
  let normalized_string := PyStr.lower input_string in
  existsb (fun word => PyStr.str_in word normalized_string) blacklist_words.

(** ** Data model *)

(** Python values that reach [jsonify]: what [json.loads] can produce and
    the dict literals of the handler.  A dict keeps its items in insertion
    order; a float is kept as its 64-bit pattern and never computed on. *)
Inductive pyval : Type :=
| PNone
| PBool (b : bool)
| PInt (z : Z)
| PFloat (bits : Z)
| PStr (s : string)
| PList (l : list pyval)
| PDict (items : list (string * pyval)).

(** A Flask response: the value serialised as the JSON body and the HTTP
    status code. *)
Record Response : Type := mkResponse { body : pyval; status : Z }.

(** [jsonify(v)]: JSON body with the default status 200. *)
Definition jsonify (v : pyval) : Response := {| body := v; status := 200 |}.

(** [return resp, code] *)
Definition with_status (r : Response) (code : Z) : Response :=
  {| body := body r; status := code |}.

(** An uploaded file ([werkzeug.datastructures.FileStorage]). *)
Record FileStorage : Type :=
  { filename : string; mimetype : string; stream : string }.

(** The multipart request: [request.files.get('photo')],
    [request.form.get('name')], [request.form.get('description')]. *)
Record Request : Type :=
  { files_photo : option FileStorage;
    form_name : option string;
    form_description : option string }.

(** Truth value of [request.files.get('photo')]: [None] is false, and a
    [FileStorage] is true exactly when its filename is non-empty. *)
Definition image_truthy (image : option FileStorage) : bool :=
  match image with
  | None => false
  | Some f => PyStr.truthy (Some (filename f))
  end.

(** A member of one of the service's enumerations, with its [.name]. *)
Module Enum.
Record t : Type := { name : string; number : Z }.
End Enum.

Record SafetyRating : Type :=
  { category : Enum.t; probability : Enum.t }.

Record Candidate : Type :=
  { finish_reason : Enum.t; safety_ratings : list SafetyRating }.

(** Exceptions the handler can meet. *)
Inductive exn : Type :=
| JSONDecodeError
| IndexError
| AttributeError
| FileNotFoundError
| OtherError (what : string).

Inductive outcome (A : Type) : Type :=
| Ok (a : A)
| Raise (e : exn).
Arguments Ok {A} a.
Arguments Raise {A} e.

(** The reply of [model.generate_content]: [text] is a property whose
    evaluation may raise, [candidates] is a list. *)
Record GenerateContentResponse : Type :=
  { text : outcome string; candidates : list Candidate }.

(** Handle returned by [genai.upload_file]. *)
Record File : Type := { uri : string }.

(** One element of the prompt list. *)
Inductive Part : Type :=
| PartText (s : string)
| PartFile (f : File).

(** ** The world and the handler monad *)

Inductive Call : Type :=
| CallUpload (path : string)
| CallGenerate (prompt : list Part).

(** Local files (path to content) and the calls made to the external
    service, oldest first. *)
Record World : Type :=
  { fs : gmap string string; calls : list Call }.

Definition M (A : Type) : Type := World -> outcome A * World.

Definition ret {A} (a : A) : M A := fun w => (Ok a, w).

Definition raise {A} (e : exn) : M A := fun w => (Raise e, w).

Definition bind {A B} (m : M A) (k : A -> M B) : M B :=
  fun w =>
    match m w with
    | (Ok a, w') => k a w'
    | (Raise e, w') => (Raise e, w')
    end.

#[global] Instance M_ret : MRet M := @ret.
#[global] Instance M_bind : MBind M := fun A B k m => bind m k.

(** Evaluate something that returns or raises without touching the world. *)
Definition lift {A} (o : outcome A) : M A := fun w => (o, w).

(** [try: body  except <matching>: handler] *)
Definition try_except {A} (catches : exn -> bool) (body handler : M A) : M A :=
  fun w =>
    match body w with
    | (Ok a, w') => (Ok a, w')
    | (Raise e, w') => if catches e then handler w' else (Raise e, w')
    end.

(** [try: body  finally: cleanup]: the cleanup always runs; when it raises,
    its exception replaces the result of the body. *)
Definition try_finally {A} (body : M A) (cleanup : M unit) : M A :=
  fun w =>
    match body w with
    | (r, w') =>
        match cleanup w' with
        | (Ok _, w'') => (r, w'')
        | (Raise e, w'') => (Raise e, w'')
        end
    end.

(** A bare [except:] catches everything. *)
Definition any_exception (_ : exn) : bool := true.

(** [except json.JSONDecodeError:] *)
Definition is_JSONDecodeError (e : exn) : bool :=
  match e with
  | JSONDecodeError => true
  | _ => false
  end.

(** [l[0]] *)
Definition index0 {A} (l : list A) : M A :=
  match l with
  | [] => raise IndexError
  | x :: _ => ret x
  end.

(** Attribute access on a value that may be [None]. *)
Definition deref {A} (o : option A) : M A :=
  match o with
  | None => raise AttributeError
  | Some a => ret a
  end.

(** [os.remove(path)] *)
Definition os_remove (path : string) : M unit :=
  fun w =>
    match fs w !! path with
    | Some _ => (Ok tt, {| fs := delete path (fs w); calls := calls w |})
    | None => (Raise FileNotFoundError, w)
    end.

(** ** External collaborators *)

Record Externals : Type :=
  { (** [os.path.splitext(p)[1]] *)
    splitext_ext : string -> string;
    (** the path [tempfile.NamedTemporaryFile] tries for a suffix *)
    temp_name : gmap string string -> string -> string;
    (** the exception creating the file at that path raises, if any *)
    temp_create : string -> option exn;
    (** [image.save(path)]: [None] when the whole stream is written, else
        the exception raised and what had been written by then *)
    image_save : string -> FileStorage -> option (exn * string);
    (** [genai.upload_file(path)], given the content found at the path *)
    upload_file : string -> string -> outcome File;
    (** [model.generate_content(prompt, generation_config=...)] *)
    generate_content : list Part -> outcome GenerateContentResponse;
    (** [json.loads(s)] *)
    json_loads : string -> outcome pyval }.

(** ** The handler (source lines 58-133) *)

Definition generic_refusal : pyval :=
  PDict [("compliant", PBool false);
         ("reason", PStr "Does not comply with our Term of Service")].

Definition error_body (message : string) : pyval :=
  PDict [("error", PStr message)].

Definition supported_mimetypes : list string :=
  ["image/png"; "image/jpeg"; "image/webp"; "image/heic"; "image/heif"].

(** [f"{rating.category.name[14:]} ({rating.probability.name})"] *)
Definition rating_label (rating : SafetyRating) : string :=
  PyStr.slice_from 14 (Enum.name (category rating)) ++ " (" ++
  Enum.name (probability rating) ++ ")".

(** The prompt list of line 90. *)
Definition build_prompt (name description : option string) (myfile : File)
  : list Part :=
  [ PartText "Analyze the following product description and image for compliance with platform regulations(given in system prompt):";
    PartText (String "010" (String "010" ""));
    PartFile myfile;
    PartText (String "010" (String "010" ""));
    PartText ("Description: " ++ PyStr.fmt name ++ " " ++ PyStr.fmt description) ].

Section Handler.

Variable ext : Externals.

(** Lines 81-83: create the temporary file and save the image into it.
    These lines stand before the [try]: when the creation raises nothing is
    written; when [image.save] raises the file, created with
    [delete=False], stays with what had been written. *)
Definition save_to_temp (image : FileStorage) : M string :=
  fun w =>
    let temp_file_path := temp_name ext (fs w) (splitext_ext ext (filename image)) in
    match temp_create ext temp_file_path with
    | Some e => (Raise e, w)
    | None =>
        let created := <[temp_file_path := ""]> (fs w) in
        match image_save ext temp_file_path image with
        | Some (e, written) =>
            (Raise e, {| fs := <[temp_file_path := written]> created;
                         calls := calls w |})
        | None =>
            (Ok temp_file_path,
             {| fs := <[temp_file_path := stream image]> created;
                calls := calls w |})
        end
    end.

Definition genai_upload_file (path : string) : M File :=
  fun w =>
    let w' := {| fs := fs w; calls := calls w ++ [CallUpload path] |} in
    match fs w !! path with
    | Some data => (upload_file ext path data, w')
    | None => (Raise FileNotFoundError, w')
    end.

Definition model_generate_content (prompt : list Part)
  : M GenerateContentResponse :=
  fun w =>
    (generate_content ext prompt,
     {| fs := fs w; calls := calls w ++ [CallGenerate prompt] |}).

(** Lines 103-120: the safety-filter branch. *)
Definition safety_verdict (c : Candidate) : Response :=
  let non_negligible_ratings :=
    List.filter (fun rating =>
                   negb (String.eqb (Enum.name (probability rating)) "NEGLIGIBLE"))
                (safety_ratings c) in
  match non_negligible_ratings with
  | _ :: _ =>
      let reason := PyStr.join ", " (map rating_label non_negligible_ratings) in
      jsonify (PDict [("compliant", PBool false); ("reason", PStr reason)])
  | [] => jsonify (PDict [("compliant", PBool true)])
  end.

(** Lines 121-127: the model's text is parsed and passed on. *)
Definition parse_answer (response : GenerateContentResponse) : M Response :=
  try_except is_JSONDecodeError
    (t ← lift (text response);
     response_data ← lift (json_loads ext (PyStr.strip t));
     ret (jsonify response_data))
    (ret (jsonify (error_body "Invalid JSON response from the model"))).

(** Lines 86-127: the body of the outer [try]. *)
Definition classify (name description : option string)
           (temp_file_path : string) : M Response :=
  myfile ← genai_upload_file temp_file_path;
  let prompt := build_prompt name description myfile in
  response ← model_generate_content prompt;
  lift (text response);;
  c0 ← index0 (candidates response);
  if String.eqb (Enum.name (finish_reason c0)) "SAFETY"
  then ret (safety_verdict c0)
  else parse_answer response.

(** Lines 85-133: the [try] statement with its bare [except] and its
    [finally]. *)
Definition classify_guarded (name description : option string)
           (temp_file_path : string) : M Response :=
  try_finally
    (try_except any_exception
       (classify name description temp_file_path)
       (ret (jsonify generic_refusal)))
    (os_remove temp_file_path).

Definition check_compliance (request : Request) : M Response :=
  let image := files_photo request in
  let name := form_name request in
  let description := form_description request in
  if contains_blacklisted_word (PyStr.fmt name ++ " " ++ PyStr.fmt description)
  then ret (jsonify generic_refusal)
  else if negb (image_truthy image) || negb (PyStr.truthy description)
  then ret (with_status (jsonify (error_body "Image and description are required")) 400)
  else
    img ← deref image;
    if negb (existsb (String.eqb (mimetype img)) supported_mimetypes)
    then ret (with_status (jsonify (error_body "Unsupported image format")) 400)
    else
      temp_file_path ← save_to_temp img;
      classify_guarded name description temp_file_path.

End Handler.

(** ** Vocabulary of the specification *)

(** The text the denylist sees: [f"{name} {description}"]. *)
Definition combined_text (request : Request) : string :=
  PyStr.fmt (form_name request) ++ " " ++ PyStr.fmt (form_description request).

(** [word] occurs in [text] as a substring when letter case is ignored on
    both sides. *)
Definition occurs_ignoring_case (word text : string) : bool :=
  PyStr.str_in (PyStr.lower word) (PyStr.lower text).

(** The generic reason as the specification spells it. *)
Definition spec_generic_refusal : pyval :=
  PDict [("compliant", PBool false);
         ("reason", PStr "Does not comply with our Terms of Service")].

(** The request passes the denylist and both validation steps, so the
    handler goes on to the temporary file and the classifier. *)
Definition reaches_classification (request : Request) : bool :=
  negb (contains_blacklisted_word (combined_text request))
  && image_truthy (files_photo request)
  && PyStr.truthy (form_description request)
  && match files_photo request with
     | Some img => existsb (String.eqb (mimetype img)) supported_mimetypes
     | None => false
     end.

(** The three outcomes of the specification's data model. *)
Inductive ComplianceResult : Type :=
| Compliant
| NonCompliant (reason : string)
| RequestError (message : string) (statusHint : Z).

(** Reading a response as one of the three outcomes. *)
Definition result_of (r : Response) : option ComplianceResult :=
  match body r with
  | PDict [("compliant", PBool true)] => Some Compliant
  | PDict [("compliant", PBool false); ("reason", PStr s)] => Some (NonCompliant s)
  | PDict [("error", PStr m)] => Some (RequestError m (status r))
  | _ => None
  end.

(** The reason or message carried by an outcome is not the empty string. *)
Definition message_nonempty (o : ComplianceResult) : Prop :=
  match o with
  | Compliant => True
  | NonCompliant reason => reason <> ""
  | RequestError message _ => message <> ""
  end.

(** The strings found under the keys ["reason"] and ["error"] of a body. *)
Definition message_strings (v : pyval) : list string :=
  match v with
  | PDict items =>
      flat_map (fun kv =>
                  match kv with
                  | (k, PStr s) =>
                      if String.eqb k "reason" || String.eqb k "error"
                      then [s] else []
                  | _ => []
                  end) items
  | _ => []
  end.

(** The same request with another [name] field. *)
Definition with_name (n : option string) (request : Request) : Request :=
  {| files_photo := files_photo request;
     form_name := n;
     form_description := form_description request |}.

(** No usable photo: the part is absent, or its filename is empty. *)
Definition photo_missing_or_unnamed (request : Request) : Prop :=
  match files_photo request with
  | None => True
  | Some f => filename f = ""
  end.

(** No usable description: the field is absent, or it is the empty string. *)
Definition description_missing_or_empty (request : Request) : Prop :=
  form_description request = None \/ form_description request = Some "".

(** The path of the per-request temporary file. *)
Definition temp_path (ext : Externals) (img : FileStorage) (w : World) : string :=
  temp_name ext (fs w) (splitext_ext ext (filename img)).

(** The exception lines 81-83 raise for a photo, if any. *)
Definition save_raises (ext : Externals) (img : FileStorage) (w : World)
  : option exn :=
  match temp_create ext (temp_path ext img w) with
  | Some e => Some e
  | None =>
      match image_save ext (temp_path ext img w) img with
      | Some (e, _) => Some e
      | None => None
      end
  end.

(** The temporary file was created and the image saved into it. *)
Definition save_succeeds (ext : Externals) (img : FileStorage) (w : World)
  : Prop :=
  save_raises ext img w = None.

(** The world once the image has been saved to the temporary file. *)
Definition saved (ext : Externals) (img : FileStorage) (w : World) : World :=
  snd (save_to_temp ext img w).

(** The outcome of the [try] body for a request, started after the save. *)
Definition classification (ext : Externals) (request : Request)
           (img : FileStorage) (w : World) : outcome Response * World :=
  classify ext (form_name request) (form_description request)
           (temp_path ext img w) (saved ext img w).

(** The service accepted the upload and the model produced the reply [r]. *)
Definition model_replied (ext : Externals) (request : Request)
           (img : FileStorage) (w : World) (r : GenerateContentResponse) : Prop :=
  exists myfile,
    upload_file ext (temp_path ext img w) (stream img) = Ok myfile
    /\ generate_content ext
         (build_prompt (form_name request) (form_description request) myfile)
       = Ok r.

(** The reply did not end on the safety filter and its text is [t]. *)
Definition completed_normally (r : GenerateContentResponse) (t : string) : Prop :=
  text r = Ok t
  /\ exists c0 rest,
      candidates r = c0 :: rest
      /\ Enum.name (finish_reason c0) <> "SAFETY".

(** The ratings the branch keeps. *)
Definition non_negligible (c : Candidate) : list SafetyRating :=
  List.filter (fun rating =>
                 negb (String.eqb (Enum.name (probability rating)) "NEGLIGIBLE"))
              (safety_ratings c).

(** [c] occurs in [s]. *)
Fixpoint has_char (c : ascii) (s : string) : bool :=
  match s with
  | EmptyString => false
  | String d s' => Ascii.eqb d c || has_char c s'
  end.

(** Every character of [s] is one that [str.strip()] removes. *)
Fixpoint all_space (s : string) : bool :=
  match s with
  | EmptyString => true
  | String c s' => PyStr.is_space c && all_space s'
  end.

(** The body is a dict whose ["compliant"] entry is [True]. *)
Definition says_compliant (v : pyval) : bool :=
  match v with
  | PDict items =>
      existsb (fun kv =>
                 match kv with
                 | (k, PBool true) => String.eqb k "compliant"
                 | _ => false
                 end) items
  | _ => false
  end.

(** The calls a request causes: none unless it passes validation and the
    temporary file is saved, then the upload of the temporary file, then,
    when the upload returned a handle, the model call with the prompt built
    around that handle. *)
Definition expected_calls (ext : Externals) (request : Request) (w : World)
  : list Call :=
  match files_photo request with
  | Some img =>
      if reaches_classification request
      then match save_raises ext img w with
           | Some _ => []
           | None =>
               CallUpload (temp_path ext img w)
               :: match upload_file ext (temp_path ext img w) (stream img) with
                  | Ok myfile =>
                      [CallGenerate (build_prompt (form_name request)
                                                  (form_description request) myfile)]
                  | Raise _ => []
                  end
           end
      else []
  | None => []
  end.

(** ** Sample requests and collaborators for closed examples *)

Module Sample.

Definition w0 : World := {| fs := ∅; calls := [] |}.

Definition png : FileStorage :=
  {| filename := "sock.png"; mimetype := "image/png"; stream := "PNGDATA" |}.

Definition txt : FileStorage :=
  {| filename := "notes.txt"; mimetype := "text/plain"; stream := "hello" |}.

Definition stop : Enum.t := {| Enum.name := "STOP"; Enum.number := 1 |}.
Definition safety : Enum.t := {| Enum.name := "SAFETY"; Enum.number := 3 |}.
Definition negligible : Enum.t :=
  {| Enum.name := "NEGLIGIBLE"; Enum.number := 1 |}.
Definition high : Enum.t := {| Enum.name := "HIGH"; Enum.number := 4 |}.
Definition category_x : Enum.t :=
  {| Enum.name := "HARM_CATEGORY_X"; Enum.number := 0 |}.

(** A JSON text needs the double-quote character (code 34). *)
Definition quoted (s : string) : string :=
  String (ascii_of_nat 34) (s ++ String (ascii_of_nat 34) "").

(** The text [{"compliant": true, "reason": ""}]. *)
Definition compliant_empty_reason_text : string :=
  "{" ++ quoted "compliant" ++ ": true, " ++ quoted "reason" ++ ": "
      ++ quoted "" ++ "}".

(** [json.loads] on the few texts the examples feed it; every other text
    is reported as malformed. *)
Definition json_loads_sample (s : string) : outcome pyval :=
  if String.eqb s compliant_empty_reason_text
  then Ok (PDict [("compliant", PBool true); ("reason", PStr "")])
  else if String.eqb s "[1, 2]" then Ok (PList [PInt 1; PInt 2])
  else if String.eqb s "42" then Ok (PInt 42)
  else Raise JSONDecodeError.

(** A reply that finished normally with the given text. *)
Definition answered (t : string) : GenerateContentResponse :=
  {| text := Ok t;
     candidates := [ {| finish_reason := stop; safety_ratings := [] |} ] |}.

(** A reply cut by the safety filter: it carries ratings and no content
    part, so evaluating [response.text] raises [ValueError]. *)
Definition blocked (ratings : list SafetyRating) : GenerateContentResponse :=
  {| text := Raise (OtherError "ValueError");
     candidates := [ {| finish_reason := safety; safety_ratings := ratings |} ] |}.

(** [os.path.splitext(p)[1]] on a POSIX system: the part of the last path
    component from its last dot on, leading dots of the component not
    counting. *)
Fixpoint basename (p : string) : string :=
  match p with
  | EmptyString => EmptyString
  | String c p' =>
      if has_char "/" p' then basename p'
      else if Ascii.eqb c "/" then p' else p
  end.

Fixpoint lstrip_dots (s : string) : string :=
  match s with
  | EmptyString => EmptyString
  | String c s' => if Ascii.eqb c "." then lstrip_dots s' else s
  end.

Fixpoint from_last_dot (s : string) : option string :=
  match s with
  | EmptyString => None
  | String c s' =>
      match from_last_dot s' with
      | Some e => Some e
      | None => if Ascii.eqb c "." then Some s else None
      end
  end.

Definition posix_splitext_ext (p : string) : string :=
  match from_last_dot (lstrip_dots (basename p)) with
  | Some e => e
  | None => ""
  end.

(** The temporary path for a suffix. *)
Definition tmp_path (suffix : string) : string := "/tmp/tmpk3x9" ++ suffix.

(** Creating a file fails when its name, the path without ["/tmp/"], is
    longer than 255 characters. *)
Definition create_checks_length (path : string) : option exn :=
  if Nat.ltb 255 (String.length path - 5)%nat
  then Some (OtherError "OSError") else None.

Fixpoint repeat_char (n : nat) (c : ascii) : string :=
  match n with
  | O => EmptyString
  | S n' => String c (repeat_char n' c)
  end.

(** A photo whose filename carries an extension of 301 characters. *)
Definition long_png : FileStorage :=
  {| filename := "sock." ++ repeat_char 300 "a";
     mimetype := "image/png"; stream := "PNGDATA" |}.

(** Collaborators whose upload succeeds and whose model gives [reply]. *)
Definition serving (reply : outcome GenerateContentResponse) : Externals :=
  {| splitext_ext := posix_splitext_ext;
     temp_name := fun _ suffix => tmp_path suffix;
     temp_create := create_checks_length;
     image_save := fun _ _ => None;
     upload_file := fun _ _ => Ok {| uri := "files/abc" |};
     generate_content := fun _ => reply;
     json_loads := json_loads_sample |}.

(** Collaborators whose upload fails. *)
Definition offline : Externals :=
  {| splitext_ext := posix_splitext_ext;
     temp_name := fun _ suffix => tmp_path suffix;
     temp_create := create_checks_length;
     image_save := fun _ _ => None;
     upload_file := fun _ _ => Raise (OtherError "ConnectionError");
     generate_content := fun _ => Raise (OtherError "ConnectionError");
     json_loads := json_loads_sample |}.

(** Collaborators on a full disk: the file is created, [image.save] writes
    the first three characters and raises. *)
Definition disk_full : Externals :=
  {| splitext_ext := posix_splitext_ext;
     temp_name := fun _ suffix => tmp_path suffix;
     temp_create := create_checks_length;
     image_save := fun _ img =>
       Some (OtherError "OSError", String.substring 0 3 (stream img));
     upload_file := fun _ _ => Ok {| uri := "files/abc" |};
     generate_content := fun _ => Ok (answered "42");
     json_loads := json_loads_sample |}.

Definition request (image : option FileStorage) (n d : option string)
  : Request :=
  {| files_photo := image; form_name := n; form_description := d |}.

(** Collaborators whose model tells the two prompts apart: it answers [42]
    when the prompt ends with the text given for an absent name, and
    [[1, 2]] otherwise. *)
Definition name_sensitive : Externals :=
  {| splitext_ext := posix_splitext_ext;
     temp_name := fun _ suffix => tmp_path suffix;
     temp_create := create_checks_length;
     image_save := fun _ _ => None;
     upload_file := fun _ _ => Ok {| uri := "files/abc" |};
     generate_content := fun prompt =>
       if existsb (fun part =>
                     match part with
                     | PartText s => String.eqb s "Description: None socks"
                     | PartFile _ => false
                     end) prompt
       then Ok (answered "42")
       else Ok (answered "[1, 2]");
     json_loads := json_loads_sample |}.

End Sample.

(** ** Facts about the string operations *)

Example blacklist_vodka :
  contains_blacklisted_word "This is a bottle of VODKA" = true.
Proof. reflexivity. Qed.

Example blacklist_socks : contains_blacklisted_word "None socks" = false.
Proof. reflexivity. Qed.

Example strip_sample : PyStr.strip "  [1, 2] " = "[1, 2]".
Proof. reflexivity. Qed.

Lemma lower_char_never_N (c : ascii) :
  Ascii.eqb "N"%char (PyStr.lower_char c) = false.
Proof. destruct c as [[] [] [] [] [] [] [] []]; reflexivity. Qed.

(** The entry ["NSFW"] is written in upper case, the text it is searched in
    is lowered first: that entry can never be found. *)
Lemma NSFW_never_found (s : string) :
  PyStr.str_in "NSFW" (PyStr.lower s) = false.
Proof.
  induction s as [|c s IH]; [reflexivity|].
  cbn [PyStr.lower PyStr.str_in PyStr.startswith].
  now rewrite lower_char_never_N, IH.
Qed.

Lemma lowercase_entries (word : string) :
  In word blacklist_words -> word <> "NSFW" -> PyStr.lower word = word.
Proof.
  intros Hin Hne.
  assert (Hall : forallb (fun w => String.eqb w "NSFW"
                                   || String.eqb (PyStr.lower w) w)
                         blacklist_words = true) by (vm_compute; reflexivity).
  rewrite forallb_forall in Hall. specialize (Hall word Hin).
  apply orb_true_iff in Hall. destruct Hall as [H|H].
  - apply String.eqb_eq in H. contradiction.
  - now apply String.eqb_eq in H.
Qed.

Lemma blacklisted_intro (word text : string) :
  In word blacklist_words ->
  PyStr.str_in word (PyStr.lower text) = true ->
  contains_blacklisted_word text = true.
Proof.
  intros Hin Hocc. unfold contains_blacklisted_word.
  apply existsb_exists. exists word. now split.
Qed.

(** ** Running the handler *)

Ltac unfold_monad :=
  unfold mbind, M_bind, bind, ret, lift, raise, try_except, try_finally,
    index0, deref in *.

Lemma run_denylisted (ext : Externals) (request : Request) (w : World) :
  contains_blacklisted_word (combined_text request) = true ->
  check_compliance ext request w = (Ok (jsonify generic_refusal), w).
Proof.
  intros H. unfold check_compliance, combined_text in *. now rewrite H.
Qed.

Lemma run_required (ext : Externals) (request : Request) (w : World) :
  contains_blacklisted_word (combined_text request) = false ->
  image_truthy (files_photo request) = false
  \/ PyStr.truthy (form_description request) = false ->
  check_compliance ext request w =
    (Ok (with_status (jsonify (error_body "Image and description are required")) 400), w).
Proof.
  intros H Hmiss. unfold check_compliance, combined_text in *. rewrite H.
  destruct Hmiss as [-> | ->]; [reflexivity|].
  now rewrite orb_true_r.
Qed.

Lemma run_unsupported (ext : Externals) (request : Request) (w : World)
      (img : FileStorage) :
  contains_blacklisted_word (combined_text request) = false ->
  files_photo request = Some img ->
  image_truthy (files_photo request) = true ->
  PyStr.truthy (form_description request) = true ->
  existsb (String.eqb (mimetype img)) supported_mimetypes = false ->
  check_compliance ext request w =
    (Ok (with_status (jsonify (error_body "Unsupported image format")) 400), w).
Proof.
  intros H Himg Ht Hd Hm. unfold check_compliance, combined_text in *.
  rewrite H, Ht, Hd, Himg. unfold_monad. cbn -[existsb]. now rewrite Hm.
Qed.

Lemma run_classifies (ext : Externals) (request : Request) (w : World)
      (img : FileStorage) :
  reaches_classification request = true ->
  files_photo request = Some img ->
  check_compliance ext request w =
    match save_to_temp ext img w with
    | (Ok temp_file_path, w1) =>
        classify_guarded ext (form_name request) (form_description request)
                         temp_file_path w1
    | (Raise e, w1) => (Raise e, w1)
    end.
Proof.
  intros Hr Himg. unfold reaches_classification in Hr. rewrite Himg in Hr.
  apply andb_true_iff in Hr as [Hr Hm].
  apply andb_true_iff in Hr as [Hr Hd].
  apply andb_true_iff in Hr as [Hr Ht].
  apply negb_true_iff in Hr.
  unfold check_compliance, combined_text in *.
  rewrite Hr, Himg, Ht, Hd. unfold_monad.
  cbn -[existsb save_to_temp classify_guarded]. rewrite Hm.
  cbn -[save_to_temp classify_guarded].
  destruct (save_to_temp ext img w) as [[p|e] w1]; reflexivity.
Qed.

(** The body of the [try], step by step. *)
Lemma classify_steps (ext : Externals) (n d : option string) (p : string)
      (w : World) :
  classify ext n d p w =
    let w1 := {| fs := fs w; calls := calls w ++ [CallUpload p] |} in
    match fs w !! p with
    | None => (Raise FileNotFoundError, w1)
    | Some data =>
        match upload_file ext p data with
        | Raise e => (Raise e, w1)
        | Ok myfile =>
            let prompt := build_prompt n d myfile in
            let w2 := {| fs := fs w;
                         calls := (calls w ++ [CallUpload p])
                                    ++ [CallGenerate prompt] |} in
            match generate_content ext prompt with
            | Raise e => (Raise e, w2)
            | Ok response =>
                match text response with
                | Raise e => (Raise e, w2)
                | Ok t =>
                    match candidates response with
                    | [] => (Raise IndexError, w2)
                    | c0 :: _ =>
                        if String.eqb (Enum.name (finish_reason c0)) "SAFETY"
                        then (Ok (safety_verdict c0), w2)
                        else
                          match json_loads ext (PyStr.strip t) with
                          | Ok v => (Ok (jsonify v), w2)
                          | Raise e =>
                              if is_JSONDecodeError e
                              then (Ok (jsonify (error_body
                                      "Invalid JSON response from the model")), w2)
                              else (Raise e, w2)
                          end
                    end
                end
            end
        end
    end.
Proof.
  unfold classify, parse_answer, genai_upload_file, model_generate_content.
  unfold_monad. cbn.
  destruct (fs w !! p) as [data|]; [|reflexivity].
  destruct (upload_file ext p data) as [myfile|e]; [|reflexivity]. cbn.
  destruct (generate_content ext _) as [response|e]; [|reflexivity].
  destruct (text response) as [t|e]; [|reflexivity].
  destruct (candidates response) as [|c0 rest]; [reflexivity|].
  unfold ret; cbn.
  destruct (String.eqb _ "SAFETY"); [reflexivity|].
  destruct (json_loads ext _) as [v|e]; [reflexivity|].
  destruct (is_JSONDecodeError e); reflexivity.
Qed.

Lemma classify_keeps_files (ext : Externals) (n d : option string)
      (p : string) (w : World) :
  fs (snd (classify ext n d p w)) = fs w.
Proof.
  rewrite classify_steps. cbn.
  destruct (fs w !! p) as [data|]; [|reflexivity].
  destruct (upload_file ext p data) as [myfile|e]; [|reflexivity].
  destruct (generate_content ext _) as [response|e]; [|reflexivity].
  destruct (text response) as [t|e]; [|reflexivity].
  destruct (candidates response) as [|c0 rest]; [reflexivity|].
  destruct (String.eqb _ "SAFETY"); [reflexivity|].
  destruct (json_loads ext _) as [v|e]; [reflexivity|].
  destruct (is_JSONDecodeError e); reflexivity.
Qed.

Lemma run_guarded (ext : Externals) (n d : option string) (p : string)
      (w : World) (data : string) :
  fs w !! p = Some data ->
  classify_guarded ext n d p w =
    (Ok (match fst (classify ext n d p w) with
         | Ok r => r
         | Raise _ => jsonify generic_refusal
         end),
     {| fs := delete p (fs w); calls := calls (snd (classify ext n d p w)) |}).
Proof.
  intros Hfile. unfold classify_guarded. unfold_monad.
  pose proof (classify_keeps_files ext n d p w) as Hfs.
  destruct (classify ext n d p w) as [[r|e] w1]; cbn in *;
    unfold os_remove; cbn; rewrite Hfs, Hfile; reflexivity.
Qed.

(** ** The denylist short-circuit *)

(** C1 (as amended).  When the combined text contains, letter case ignored,
    a denylist entry other than ["NSFW"], the handler answers at once with
    status 200 and the body
    [{"compliant": false, "reason": "Does not comply with our Term of Service"}],
    and it leaves the world as it found it: no file is written, nothing is
    uploaded and the model is not called. *)
Theorem denylist_hit_short_circuits
        (ext : Externals) (request : Request) (w : World) (word : string) :
  In word blacklist_words ->
  word <> "NSFW" ->
  occurs_ignoring_case word (combined_text request) = true ->
  check_compliance ext request w =
    (Ok {| body := PDict [("compliant", PBool false);
                          ("reason", PStr "Does not comply with our Term of Service")];
           status := 200 |},
     w)
  /\ calls (snd (check_compliance ext request w)) = calls w.
Proof.
  intros Hin Hne Hocc.
  unfold occurs_ignoring_case in Hocc.
  rewrite (lowercase_entries word Hin Hne) in Hocc.
  pose proof (blacklisted_intro _ _ Hin Hocc) as Hhit.
  rewrite (run_denylisted ext request w Hhit). split; reflexivity.
Qed.

Lemma denylist_hit_short_circuits_witness :
  check_compliance (Sample.serving (Ok (Sample.answered "42")))
    (Sample.request (Some Sample.png) None (Some "This is a bottle of VODKA"))
    Sample.w0 =
    (Ok {| body := PDict [("compliant", PBool false);
                          ("reason", PStr "Does not comply with our Term of Service")];
           status := 200 |},
     Sample.w0)
  /\ calls (snd (check_compliance (Sample.serving (Ok (Sample.answered "42")))
                   (Sample.request (Some Sample.png) None
                                   (Some "This is a bottle of VODKA"))
                   Sample.w0)) = calls Sample.w0.
Proof.
  apply (denylist_hit_short_circuits
           (Sample.serving (Ok (Sample.answered "42")))
           (Sample.request (Some Sample.png) None (Some "This is a bottle of VODKA"))
           Sample.w0 "vodka").
  - unfold blacklist_words. simpl. tauto.
  - discriminate.
  - vm_compute. reflexivity.
Defined.

(** C1 as the specification words it fails twice.  A request that names
    vodka is refused, but the reason reads "Term of Service", not "Terms of
    Service"; and a request whose text is the denylist entry ["NSFW"] itself
    is not refused: it passes the matcher and the image is uploaded. *)
Lemma denylist_claim_fails :
  (In "vodka" blacklist_words
   /\ occurs_ignoring_case "vodka"
        (combined_text (Sample.request (Some Sample.png) None
                                       (Some "This is a bottle of vodka"))) = true
   /\ fst (check_compliance (Sample.serving (Ok (Sample.answered "42")))
             (Sample.request (Some Sample.png) None
                             (Some "This is a bottle of vodka"))
             Sample.w0)
      <> Ok (jsonify spec_generic_refusal))
  /\
  (In "NSFW" blacklist_words
   /\ occurs_ignoring_case "NSFW"
        (combined_text (Sample.request (Some Sample.png) None (Some "NSFW"))) = true
   /\ contains_blacklisted_word
        (combined_text (Sample.request (Some Sample.png) None (Some "NSFW"))) = false
   /\ calls (snd (check_compliance (Sample.serving (Ok (Sample.answered "42")))
                    (Sample.request (Some Sample.png) None (Some "NSFW"))
                    Sample.w0))
      = [ CallUpload "/tmp/tmpk3x9.png";
          CallGenerate (build_prompt None (Some "NSFW") {| uri := "files/abc" |}) ]).
Proof.
  split.
  - split; [unfold blacklist_words; simpl; tauto|].
    split; [vm_compute; reflexivity|].
    vm_compute. discriminate.
  - split; [unfold blacklist_words; simpl; tauto|].
    split; [vm_compute; reflexivity|].
    split; vm_compute; reflexivity.
Qed.

(** ** Upload validation *)

Lemma photo_unusable_falsy (request : Request) :
  photo_missing_or_unnamed request <-> image_truthy (files_photo request) = false.
Proof.
  unfold photo_missing_or_unnamed, image_truthy.
  destruct (files_photo request) as [f|]; [|tauto].
  destruct (filename f); cbn; split; congruence.
Qed.

Lemma description_unusable_falsy (request : Request) :
  description_missing_or_empty request
  <-> PyStr.truthy (form_description request) = false.
Proof.
  unfold description_missing_or_empty.
  destruct (form_description request) as [[|c s]|]; cbn; split;
    try tauto; try congruence; intros [H|H]; congruence.
Qed.

Lemma mimetype_unsupported (m : string) :
  ~ In m supported_mimetypes ->
  existsb (String.eqb m) supported_mimetypes = false.
Proof.
  intros Hn. apply not_true_is_false. intros H.
  apply existsb_exists in H as [x [Hin Heq]].
  apply String.eqb_eq in Heq. now subst.
Qed.

(** C4 (as amended).  For a request that passes the denylist: when the
    photo is missing or has an empty filename, or the description is missing
    or empty, the answer is 400 with
    [{"error": "Image and description are required"}], whatever the MIME
    type; otherwise, when the declared MIME type is not one of image/png,
    image/jpeg, image/webp, image/heic, image/heif, the answer is 400 with
    [{"error": "Unsupported image format"}].  Neither answer touches the
    world. *)
Theorem validation_order
        (ext : Externals) (request : Request) (w : World) :
  contains_blacklisted_word (combined_text request) = false ->
  (photo_missing_or_unnamed request \/ description_missing_or_empty request ->
   check_compliance ext request w =
     (Ok {| body := PDict [("error", PStr "Image and description are required")];
            status := 400 |}, w))
  /\
  (forall img,
      files_photo request = Some img ->
      ~ photo_missing_or_unnamed request ->
      ~ description_missing_or_empty request ->
      ~ In (mimetype img)
           ["image/png"; "image/jpeg"; "image/webp"; "image/heic"; "image/heif"] ->
      check_compliance ext request w =
        (Ok {| body := PDict [("error", PStr "Unsupported image format")];
               status := 400 |}, w)).
Proof.
  intros Hpass. split.
  - intros Hmiss. apply run_required; [assumption|].
    destruct Hmiss as [H|H].
    + left. now apply photo_unusable_falsy.
    + right. now apply description_unusable_falsy.
  - intros img Himg Hphoto Hdesc Hmime.
    apply (run_unsupported ext request w img); try assumption.
    + rewrite photo_unusable_falsy in Hphoto. now apply not_false_is_true.
    + rewrite description_unusable_falsy in Hdesc. now apply not_false_is_true.
    + now apply mimetype_unsupported.
Qed.

Lemma validation_order_witness :
  check_compliance Sample.offline (Sample.request None None (Some "socks"))
                   Sample.w0 =
    (Ok {| body := PDict [("error", PStr "Image and description are required")];
           status := 400 |}, Sample.w0)
  /\ check_compliance Sample.offline
                      (Sample.request (Some Sample.txt) None None) Sample.w0 =
       (Ok {| body := PDict [("error", PStr "Image and description are required")];
              status := 400 |}, Sample.w0)
  /\ check_compliance Sample.offline
                      (Sample.request (Some Sample.txt) None (Some "socks"))
                      Sample.w0 =
       (Ok {| body := PDict [("error", PStr "Unsupported image format")];
              status := 400 |}, Sample.w0).
Proof.
  split; [|split].
  - apply (proj1 (validation_order Sample.offline
                    (Sample.request None None (Some "socks")) Sample.w0
                    eq_refl)).
    left. exact I.
  - apply (proj1 (validation_order Sample.offline
                    (Sample.request (Some Sample.txt) None None) Sample.w0
                    eq_refl)).
    right. left. reflexivity.
  - apply (proj2 (validation_order Sample.offline
                    (Sample.request (Some Sample.txt) None (Some "socks"))
                    Sample.w0 eq_refl) Sample.txt eq_refl).
    + cbn. discriminate.
    + intros [H|H]; discriminate H.
    + cbn. intros H. repeat (destruct H as [H|H]; [discriminate H|]). exact H.
Defined.

(** C4 as the specification words it fails when a field is supplied but
    empty: with a photo declared text/plain and a description field that is
    present and empty, neither field is missing and the MIME type is not
    allowed, yet the answer is the "required" error, not "Unsupported image
    format". *)
Lemma validation_claim_fails :
  let request := Sample.request (Some Sample.txt) None (Some "") in
  files_photo request = Some Sample.txt
  /\ form_description request = Some ""
  /\ contains_blacklisted_word (combined_text request) = false
  /\ ~ In (mimetype Sample.txt) supported_mimetypes
  /\ fst (check_compliance Sample.offline request Sample.w0)
     = Ok {| body := PDict [("error", PStr "Image and description are required")];
             status := 400 |}
  /\ fst (check_compliance Sample.offline request Sample.w0)
     <> Ok {| body := PDict [("error", PStr "Unsupported image format")];
              status := 400 |}.
Proof.
  cbv zeta. repeat split; try (vm_compute; reflexivity).
  - cbn. intros H. repeat (destruct H as [H|H]; [discriminate H|]). exact H.
  - vm_compute. discriminate.
Qed.

(** C10.  A description field that is present but empty is handled like a
    missing one: unless the denylist matches, the answer is 400 with
    [{"error": "Image and description are required"}]. *)
Theorem empty_description_is_required
        (ext : Externals) (request : Request) (w : World) :
  form_description request = Some "" ->
  contains_blacklisted_word (combined_text request) = false ->
  check_compliance ext request w =
    (Ok {| body := PDict [("error", PStr "Image and description are required")];
           status := 400 |}, w).
Proof.
  intros Hempty Hpass. apply run_required; [assumption|].
  right. now rewrite Hempty.
Qed.

Lemma empty_description_is_required_witness :
  check_compliance (Sample.serving (Ok (Sample.answered "42")))
                   (Sample.request (Some Sample.png) (Some "socks") (Some ""))
                   Sample.w0 =
    (Ok {| body := PDict [("error", PStr "Image and description are required")];
           status := 400 |}, Sample.w0).
Proof.
  apply (empty_description_is_required
           (Sample.serving (Ok (Sample.answered "42")))
           (Sample.request (Some Sample.png) (Some "socks") (Some ""))
           Sample.w0).
  - reflexivity.
  - vm_compute. reflexivity.
Defined.

(** ** The classification stage *)

(** Lines 81-83 when nothing raises: the file holds the image. *)
Lemma save_ok (ext : Externals) (img : FileStorage) (w : World) :
  save_succeeds ext img w ->
  save_to_temp ext img w =
    (Ok (temp_path ext img w),
     {| fs := <[temp_path ext img w := stream img]>
                (<[temp_path ext img w := ""]> (fs w));
        calls := calls w |}).
Proof.
  unfold save_succeeds, save_raises, save_to_temp, temp_path. cbv zeta.
  destruct (temp_create ext _); [discriminate|].
  destruct (image_save ext _ img) as [[e written]|]; [discriminate|].
  reflexivity.
Qed.

(** Lines 81-83 when the creation or the save raises: the exception is
    the result, and no call has been made. *)
Lemma save_fails (ext : Externals) (img : FileStorage) (w : World) (e : exn) :
  save_raises ext img w = Some e ->
  fst (save_to_temp ext img w) = Raise e
  /\ calls (snd (save_to_temp ext img w)) = calls w.
Proof.
  unfold save_raises, save_to_temp, temp_path. cbv zeta.
  destruct (temp_create ext _) as [e1|]; [now intros [= ->]|].
  destruct (image_save ext _ img) as [[e2 written]|]; [|discriminate].
  now intros [= ->].
Qed.

Section Classification.

Variable ext : Externals.
Variable request : Request.
Variable img : FileStorage.
Variable w : World.

Hypothesis Hreach : reaches_classification request = true.
Hypothesis Himg : files_photo request = Some img.
Hypothesis Hsave : save_succeeds ext img w.

Lemma saved_file : fs (saved ext img w) !! temp_path ext img w = Some (stream img).
Proof. unfold saved. rewrite (save_ok ext img w Hsave). cbn. apply lookup_insert_eq. Qed.

Lemma removed_after_save :
  delete (temp_path ext img w) (fs (saved ext img w))
  = delete (temp_path ext img w) (fs w).
Proof.
  unfold saved. rewrite (save_ok ext img w Hsave). cbn.
  now rewrite !delete_insert_eq.
Qed.

(** The whole handler on a request that reaches the classifier: the answer
    is the one of the [try] body, or the generic refusal when the body
    raised; the temporary file is gone; the calls are those of the body. *)
Lemma run_classification :
  check_compliance ext request w =
    (Ok (match fst (classification ext request img w) with
         | Ok r => r
         | Raise _ => jsonify generic_refusal
         end),
     {| fs := delete (temp_path ext img w) (fs w);
        calls := calls (snd (classification ext request img w)) |}).
Proof.
  rewrite (run_classifies ext request w img Hreach Himg).
  pose proof saved_file as Hfile. pose proof removed_after_save as Hrem.
  unfold classification. unfold saved in *.
  rewrite (save_ok ext img w Hsave) in *. cbn [snd] in *.
  rewrite (run_guarded _ _ _ _ _ _ Hfile).
  now rewrite Hrem.
Qed.

(** The [try] body when the upload and the model call both succeed. *)
Lemma classification_replied (r : GenerateContentResponse) :
  model_replied ext request img w r ->
  fst (classification ext request img w) =
    match text r with
    | Raise e => Raise e
    | Ok t =>
        match candidates r with
        | [] => Raise IndexError
        | c0 :: _ =>
            if String.eqb (Enum.name (finish_reason c0)) "SAFETY"
            then Ok (safety_verdict c0)
            else
              match json_loads ext (PyStr.strip t) with
              | Ok v => Ok (jsonify v)
              | Raise e =>
                  if is_JSONDecodeError e
                  then Ok (jsonify (error_body "Invalid JSON response from the model"))
                  else Raise e
              end
        end
    end.
Proof.
  intros [myfile [Hup Hgen]].
  unfold classification. rewrite classify_steps. cbv zeta.
  rewrite saved_file, Hup, Hgen.
  destruct (text r) as [t|e]; [|reflexivity].
  destruct (candidates r) as [|c0 rest]; [reflexivity|].
  destruct (String.eqb _ "SAFETY"); [reflexivity|].
  destruct (json_loads ext _) as [v|e]; [reflexivity|].
  destruct (is_JSONDecodeError e); reflexivity.
Qed.

(** Where an exception of the [try] body can come from. *)
Lemma classification_raises (e : exn) :
  fst (classification ext request img w) = Raise e <->
  upload_file ext (temp_path ext img w) (stream img) = Raise e
  \/ exists myfile,
      upload_file ext (temp_path ext img w) (stream img) = Ok myfile
      /\ (generate_content ext
            (build_prompt (form_name request) (form_description request) myfile)
          = Raise e
          \/ exists r,
              generate_content ext
                (build_prompt (form_name request) (form_description request) myfile)
              = Ok r
              /\ (text r = Raise e
                  \/ exists t,
                      text r = Ok t
                      /\ ((candidates r = [] /\ e = IndexError)
                          \/ exists c0 rest,
                              candidates r = c0 :: rest
                              /\ Enum.name (finish_reason c0) <> "SAFETY"
                              /\ json_loads ext (PyStr.strip t) = Raise e
                              /\ is_JSONDecodeError e = false))).
Proof.
  unfold classification. rewrite classify_steps. cbv zeta.
  rewrite saved_file.
  destruct (upload_file ext _ _) as [myfile|e1].
  2:{ cbn. split.
      - intros [= ->]. now left.
      - intros [[= ->]|[? [? _]]]; [reflexivity|discriminate]. }
  destruct (generate_content ext _) as [r|e2] eqn:Hgen.
  2:{ cbn. split.
      - intros [= ->]. right. exists myfile. split; [reflexivity|]. now left.
      - intros [?|[f [[= <-] [H|[r [H _]]]]]]; try discriminate.
        + rewrite Hgen in H. now injection H as ->.
        + rewrite Hgen in H. discriminate. }
  assert (Hback : forall P : GenerateContentResponse -> Prop,
             (Ok myfile = Raise e
              \/ exists f, Ok myfile = Ok f
                  /\ (generate_content ext
                        (build_prompt (form_name request) (form_description request) f)
                      = Raise e
                      \/ exists r0,
                          generate_content ext
                            (build_prompt (form_name request) (form_description request) f)
                          = Ok r0 /\ P r0))
             <-> P r).
  { intros P. split.
    - intros [?|[f [[= <-] [H|[r0 [H HP]]]]]]; try discriminate.
      + rewrite Hgen in H. discriminate.
      + rewrite Hgen in H. now injection H as <-.
    - intros HP. right. exists myfile. split; [reflexivity|].
      right. exists r. now split. }
  rewrite (Hback (fun r0 =>
     text r0 = Raise e
     \/ exists t, text r0 = Ok t
         /\ ((candidates r0 = [] /\ e = IndexError)
             \/ exists c0 rest, candidates r0 = c0 :: rest
                 /\ Enum.name (finish_reason c0) <> "SAFETY"
                 /\ json_loads ext (PyStr.strip t) = Raise e
                 /\ is_JSONDecodeError e = false))).
  clear Hback.
  destruct (text r) as [t|e3].
  2:{ cbn. split.
      - intros [= ->]. now left.
      - intros [[= ->]|[t [? _]]]; [reflexivity|discriminate]. }
  destruct (candidates r) as [|c0 rest].
  { cbn. split.
    - intros [= <-]. right. exists t. split; [reflexivity|]. now left.
    - intros [?|[t0 [_ [[_ ->]|[c [l [? _]]]]]]]; try discriminate. reflexivity. }
  destruct (String.eqb _ "SAFETY") eqn:Hfin.
  { cbn. split; [discriminate|].
    intros [?|[t0 [_ [[? _]|[c [l [[= <- <-] [Hne _]]]]]]]]; try discriminate.
    apply String.eqb_eq in Hfin. contradiction. }
  apply String.eqb_neq in Hfin.
  destruct (json_loads ext (PyStr.strip t)) as [v|e4] eqn:Hload.
  { cbn. split; [discriminate|].
    intros [?|[t0 [[= <-] [[? _]|[c [l [_ [_ [H _]]]]]]]]]; try discriminate.
    rewrite Hload in H. discriminate. }
  destruct (is_JSONDecodeError e4) eqn:Hdec.
  { cbn. split; [discriminate|].
    intros [?|[t0 [[= <-] [[? _]|[c [l [_ [_ [H Hd]]]]]]]]]; try discriminate.
    rewrite Hload in H. injection H as ->. congruence. }
  cbn. split.
  - intros [= ->]. right. exists t. split; [reflexivity|]. right.
    exists c0, rest. repeat split; assumption.
  - intros [?|[t0 [[= <-] [[? _]|[c [l [_ [_ [H _]]]]]]]]]; try discriminate.
    rewrite Hload in H. now injection H as ->.
Qed.

End Classification.

(** What the [try] body can return. *)
Lemma classification_returns
      (ext : Externals) (request : Request) (img : FileStorage) (w : World)
      (resp : Response) :
  fst (classification ext request img w) = Ok resp ->
  (exists c, resp = safety_verdict c)
  \/ resp = jsonify (error_body "Invalid JSON response from the model")
  \/ (exists t v, json_loads ext (PyStr.strip t) = Ok v /\ resp = jsonify v).
Proof.
  unfold classification. rewrite classify_steps. cbv zeta.
  destruct (fs _ !! _) as [data|]; [|discriminate].
  destruct (upload_file ext _ _) as [myfile|e]; [|discriminate].
  destruct (generate_content ext _) as [r|e]; [|discriminate].
  destruct (text r) as [t|e]; [|discriminate].
  destruct (candidates r) as [|c0 rest]; [discriminate|].
  destruct (String.eqb _ "SAFETY").
  { intros [= <-]. left. now exists c0. }
  destruct (json_loads ext (PyStr.strip t)) as [v|e] eqn:Hload.
  { intros [= <-]. right. right. now exists t, v. }
  destruct (is_JSONDecodeError e); [|discriminate].
  intros [= <-]. right. now left.
Qed.

(** ** Temporary file cleanup *)

(** C5.  For a request that reaches the classification stage (it passes
    the denylist and validation, and its image is saved to the temporary
    file) the handler returns a response, and in the world it leaves behind
    the temporary file does not exist; every other file is as before.  This
    covers every way out of the [try]: an answer, a safety-filter outcome,
    malformed model text, and any exception of the upload or of the model
    call. *)
Theorem temp_file_removed
        (ext : Externals) (request : Request) (img : FileStorage) (w : World) :
  reaches_classification request = true ->
  files_photo request = Some img ->
  save_succeeds ext img w ->
  exists resp w',
    check_compliance ext request w = (Ok resp, w')
    /\ fs w' !! temp_path ext img w = None
    /\ fs w' = delete (temp_path ext img w) (fs w).
Proof.
  intros Hreach Himg Hsave.
  rewrite (run_classification ext request img w Hreach Himg Hsave).
  eexists. eexists. split; [reflexivity|]. cbn. split; [|reflexivity].
  apply lookup_delete_eq.
Qed.

Lemma temp_file_removed_witness :
  exists resp w',
    check_compliance Sample.offline
      (Sample.request (Some Sample.png) None (Some "socks")) Sample.w0
    = (Ok resp, w')
    /\ fs w' !! temp_path Sample.offline Sample.png Sample.w0 = None
    /\ fs w' = delete (temp_path Sample.offline Sample.png Sample.w0)
                      (fs Sample.w0).
Proof.
  apply (temp_file_removed Sample.offline
           (Sample.request (Some Sample.png) None (Some "socks"))
           Sample.png Sample.w0).
  - vm_compute. reflexivity.
  - reflexivity.
  - vm_compute. reflexivity.
Defined.

(** ** Answers of the model *)

(** C6.  When the image is saved, the upload and the model call succeed, the reply did not end
    on the safety filter, and [json.loads] rejects its stripped text with
    [JSONDecodeError], the handler returns status 200 with the body
    [{"error": "Invalid JSON response from the model"}]. *)
Theorem malformed_answer_reported
        (ext : Externals) (request : Request) (img : FileStorage) (w : World)
        (r : GenerateContentResponse) (t : string) :
  reaches_classification request = true ->
  files_photo request = Some img ->
  save_succeeds ext img w ->
  model_replied ext request img w r ->
  completed_normally r t ->
  json_loads ext (PyStr.strip t) = Raise JSONDecodeError ->
  exists w',
    check_compliance ext request w =
      (Ok {| body := PDict [("error", PStr "Invalid JSON response from the model")];
             status := 200 |}, w').
Proof.
  intros Hreach Himg Hsave Hreply [Htext [c0 [rest [Hcand Hfin]]]] Hload.
  rewrite (run_classification ext request img w Hreach Himg Hsave).
  rewrite (classification_replied ext request img w Hsave r Hreply).
  rewrite Htext, Hcand. apply String.eqb_neq in Hfin. rewrite Hfin, Hload.
  cbn. eexists. reflexivity.
Qed.

Lemma malformed_answer_reported_witness :
  exists w',
    check_compliance (Sample.serving (Ok (Sample.answered "Sure! It is fine.")))
      (Sample.request (Some Sample.png) None (Some "socks")) Sample.w0 =
      (Ok {| body := PDict [("error", PStr "Invalid JSON response from the model")];
             status := 200 |}, w').
Proof.
  apply (malformed_answer_reported
           (Sample.serving (Ok (Sample.answered "Sure! It is fine.")))
           (Sample.request (Some Sample.png) None (Some "socks"))
           Sample.png Sample.w0
           (Sample.answered "Sure! It is fine.") "Sure! It is fine.").
  - vm_compute. reflexivity.
  - reflexivity.
  - vm_compute. reflexivity.
  - exists {| uri := "files/abc" |}. split; reflexivity.
  - split; [reflexivity|].
    exists {| finish_reason := Sample.stop; safety_ratings := [] |}, [].
    split; [reflexivity|]. cbn. discriminate.
  - vm_compute. reflexivity.
Defined.

(** C9.  When the image is saved, the upload and the model call succeed, the reply did not end
    on the safety filter, and [json.loads] accepts its stripped text, the
    parsed value, whatever its shape, is the body of the status 200
    response. *)
Theorem parsed_answer_passed_through
        (ext : Externals) (request : Request) (img : FileStorage) (w : World)
        (r : GenerateContentResponse) (t : string) (v : pyval) :
  reaches_classification request = true ->
  files_photo request = Some img ->
  save_succeeds ext img w ->
  model_replied ext request img w r ->
  completed_normally r t ->
  json_loads ext (PyStr.strip t) = Ok v ->
  exists w',
    check_compliance ext request w = (Ok {| body := v; status := 200 |}, w').
Proof.
  intros Hreach Himg Hsave Hreply [Htext [c0 [rest [Hcand Hfin]]]] Hload.
  rewrite (run_classification ext request img w Hreach Himg Hsave).
  rewrite (classification_replied ext request img w Hsave r Hreply).
  rewrite Htext, Hcand. apply String.eqb_neq in Hfin. rewrite Hfin, Hload.
  cbn. eexists. reflexivity.
Qed.

Lemma parsed_answer_passed_through_witness :
  exists w',
    check_compliance (Sample.serving (Ok (Sample.answered " [1, 2] ")))
      (Sample.request (Some Sample.png) None (Some "socks")) Sample.w0 =
      (Ok {| body := PList [PInt 1; PInt 2]; status := 200 |}, w').
Proof.
  apply (parsed_answer_passed_through
           (Sample.serving (Ok (Sample.answered " [1, 2] ")))
           (Sample.request (Some Sample.png) None (Some "socks"))
           Sample.png Sample.w0
           (Sample.answered " [1, 2] ") " [1, 2] " (PList [PInt 1; PInt 2])).
  - vm_compute. reflexivity.
  - reflexivity.
  - vm_compute. reflexivity.
  - exists {| uri := "files/abc" |}. split; reflexivity.
  - split; [reflexivity|].
    exists {| finish_reason := Sample.stop; safety_ratings := [] |}, [].
    split; [reflexivity|]. cbn. discriminate.
  - vm_compute. reflexivity.
Defined.

(** ** Failures of the classification *)

(** C2 (as amended).  Once the image is saved to the temporary file,
    whatever exception leaves the [try] body (from the
    upload, the model call, the reading of the reply, or [json.loads] when
    it raises something other than [JSONDecodeError]), the handler returns
    status 200 with the body
    [{"compliant": false, "reason": "Does not comply with our Term of Service"}],
    and that response equals, body and status, the response of any request
    stopped by the denylist. *)
Theorem failure_answers_like_denylist
        (ext : Externals) (request : Request) (img : FileStorage) (w : World)
        (e : exn) :
  reaches_classification request = true ->
  files_photo request = Some img ->
  save_succeeds ext img w ->
  fst (classification ext request img w) = Raise e ->
  (exists w',
      check_compliance ext request w =
        (Ok {| body := PDict [("compliant", PBool false);
                              ("reason", PStr "Does not comply with our Term of Service")];
               status := 200 |}, w'))
  /\ (forall ext' request' w0,
         contains_blacklisted_word (combined_text request') = true ->
         fst (check_compliance ext' request' w0)
         = fst (check_compliance ext request w)).
Proof.
  intros Hreach Himg Hsave Hraise.
  rewrite (run_classification ext request img w Hreach Himg Hsave), Hraise.
  split.
  - eexists. reflexivity.
  - intros ext' request' w0 Hhit. now rewrite (run_denylisted ext' request' w0 Hhit).
Qed.

Lemma failure_answers_like_denylist_witness :
  (exists w',
      check_compliance Sample.offline
        (Sample.request (Some Sample.png) None (Some "socks")) Sample.w0 =
        (Ok {| body := PDict [("compliant", PBool false);
                              ("reason", PStr "Does not comply with our Term of Service")];
               status := 200 |}, w'))
  /\ (forall ext' request' w0,
         contains_blacklisted_word (combined_text request') = true ->
         fst (check_compliance ext' request' w0)
         = fst (check_compliance Sample.offline
                  (Sample.request (Some Sample.png) None (Some "socks"))
                  Sample.w0)).
Proof.
  apply (failure_answers_like_denylist Sample.offline
           (Sample.request (Some Sample.png) None (Some "socks"))
           Sample.png Sample.w0 (OtherError "ConnectionError")).
  - vm_compute. reflexivity.
  - reflexivity.
  - vm_compute. reflexivity.
  - vm_compute. reflexivity.
Defined.

(** C2 as the specification words it fails twice.  An upload failure is
    answered with the reason "Term of Service", so the body is not the one
    the specification quotes; and the [JSONDecodeError] raised while the
    reply is handled is answered with the "Invalid JSON" body, which is not
    the response of a denylist hit. *)
Lemma failure_claim_fails :
  (fst (classification Sample.offline
          (Sample.request (Some Sample.png) None (Some "socks"))
          Sample.png Sample.w0) = Raise (OtherError "ConnectionError")
   /\ fst (check_compliance Sample.offline
             (Sample.request (Some Sample.png) None (Some "socks")) Sample.w0)
      <> Ok (jsonify spec_generic_refusal))
  /\
  (Sample.json_loads_sample (PyStr.strip "Sure! It is fine.") = Raise JSONDecodeError
   /\ fst (check_compliance (Sample.serving (Ok (Sample.answered "Sure! It is fine.")))
             (Sample.request (Some Sample.png) None (Some "socks")) Sample.w0)
      <> fst (check_compliance (Sample.serving (Ok (Sample.answered "Sure! It is fine.")))
                (Sample.request (Some Sample.png) None (Some "a bottle of vodka"))
                Sample.w0)).
Proof.
  split; split; try (vm_compute; reflexivity); vm_compute; discriminate.
Qed.

(** ** The safety-filter branch *)

Lemma non_negligible_spec (c : Candidate) (rating : SafetyRating) :
  In rating (non_negligible c) <->
  In rating (safety_ratings c)
  /\ Enum.name (probability rating) <> "NEGLIGIBLE".
Proof.
  unfold non_negligible. rewrite filter_In, negb_true_iff, String.eqb_neq.
  reflexivity.
Qed.

Lemma safety_verdict_flagged (c : Candidate) :
  non_negligible c <> [] ->
  safety_verdict c =
    {| body := PDict [("compliant", PBool false);
                      ("reason", PStr (PyStr.join ", "
                                         (map rating_label (non_negligible c))))];
       status := 200 |}.
Proof.
  unfold safety_verdict. fold (non_negligible c).
  destruct (non_negligible c); [congruence | reflexivity].
Qed.

Lemma safety_verdict_all_negligible (c : Candidate) :
  (forall rating, In rating (safety_ratings c) ->
                  Enum.name (probability rating) = "NEGLIGIBLE") ->
  safety_verdict c = {| body := PDict [("compliant", PBool true)]; status := 200 |}.
Proof.
  intros Hall. unfold safety_verdict. fold (non_negligible c).
  destruct (non_negligible c) as [|x l] eqn:Hnn; [reflexivity|].
  assert (Hin : In x (non_negligible c)) by (rewrite Hnn; now left).
  apply non_negligible_spec in Hin as [Hin Hne]. now apply Hall in Hin.
Qed.

(** Dropping fourteen characters removes exactly ["HARM_CATEGORY_"]. *)
Lemma rating_label_prefix (x p : string) (m n : Z) :
  rating_label {| category := {| Enum.name := "HARM_CATEGORY_" ++ x; Enum.number := m |};
                  probability := {| Enum.name := p; Enum.number := n |} |}
  = x ++ " (" ++ p ++ ")".
Proof. reflexivity. Qed.

(** What the branch does once it is reached, that is when the evaluation of
    [response.text] for the [print] before it did not raise. *)
Lemma safety_branch_when_text_readable
      (ext : Externals) (request : Request) (img : FileStorage) (w : World)
      (r : GenerateContentResponse) (t : string) (c0 : Candidate)
      (rest : list Candidate) :
  reaches_classification request = true ->
  files_photo request = Some img ->
  save_succeeds ext img w ->
  model_replied ext request img w r ->
  text r = Ok t ->
  candidates r = c0 :: rest ->
  Enum.name (finish_reason c0) = "SAFETY" ->
  fst (check_compliance ext request w) = Ok (safety_verdict c0).
Proof.
  intros Hreach Himg Hsave Hreply Htext Hcand Hfin.
  rewrite (run_classification ext request img w Hreach Himg Hsave).
  rewrite (classification_replied ext request img w Hsave r Hreply).
  rewrite Htext, Hcand. apply String.eqb_eq in Hfin. now rewrite Hfin.
Qed.

(** C3 (the code departs from it).  A reply cut by the safety filter that
    carries the single rating HARM_CATEGORY_X / HIGH and no content part:
    [response.text] raises inside [print(response.text)], before the
    finish reason is looked at, so the answer is the generic refusal and
    not the reason "X (HIGH)".  With a single NEGLIGIBLE rating the answer
    is the generic refusal too, not [{"compliant": true}]. *)
Theorem safety_branch_shadowed :
  fst (check_compliance
         (Sample.serving
            (Ok (Sample.blocked [ {| category := Sample.category_x;
                                     probability := Sample.high |} ])))
         (Sample.request (Some Sample.png) None (Some "socks")) Sample.w0)
  = Ok {| body := PDict [("compliant", PBool false);
                         ("reason", PStr "Does not comply with our Term of Service")];
          status := 200 |}
  /\ safety_verdict {| finish_reason := Sample.safety;
                       safety_ratings := [ {| category := Sample.category_x;
                                              probability := Sample.high |} ] |}
     = {| body := PDict [("compliant", PBool false); ("reason", PStr "X (HIGH)")];
          status := 200 |}
  /\ fst (check_compliance
            (Sample.serving
               (Ok (Sample.blocked [ {| category := Sample.category_x;
                                        probability := Sample.negligible |} ])))
            (Sample.request (Some Sample.png) None (Some "socks")) Sample.w0)
     = Ok {| body := PDict [("compliant", PBool false);
                            ("reason", PStr "Does not comply with our Term of Service")];
             status := 200 |}.
Proof. repeat split; vm_compute; reflexivity. Qed.

(** ** The optional name field *)

Lemma absent_name_same_verdict (d : string) :
  contains_blacklisted_word ("None" ++ " " ++ d)
  = contains_blacklisted_word ("" ++ " " ++ d).
Proof.
  unfold contains_blacklisted_word. cbv zeta.
  change ("None" ++ " " ++ d) with (String "N" (String "o" (String "n" (String "e" (String " " d))))).
  change ("" ++ " " ++ d) with (String " " d).
  cbn [PyStr.lower].
  change (PyStr.lower_char "N") with "n"%char.
  change (PyStr.lower_char "o") with "o"%char.
  change (PyStr.lower_char "n") with "n"%char.
  change (PyStr.lower_char "e") with "e"%char.
  change (PyStr.lower_char " ") with " "%char.
  generalize (PyStr.lower d). intros s.
  unfold blacklist_words.
  cbn. reflexivity.
Qed.

(** C7 (as amended).  An absent name is rendered as the text "None": the
    handler treats the request exactly like the same request with the name
    "None" (same response, same calls, same prompt), and the denylist gives
    the verdict it gives for the same request with the name "". *)
Theorem absent_name_reads_None
        (ext : Externals) (request : Request) (w : World) :
  form_name request = None ->
  check_compliance ext request w
  = check_compliance ext (with_name (Some "None") request) w
  /\ contains_blacklisted_word (combined_text request)
     = contains_blacklisted_word (combined_text (with_name (Some "") request)).
Proof.
  intros Hname. destruct request as [image n d]. cbn in Hname. subst n.
  split; [reflexivity|].
  unfold combined_text, with_name. cbn [form_name form_description PyStr.fmt].
  apply absent_name_same_verdict.
Qed.

Lemma absent_name_reads_None_witness :
  check_compliance Sample.name_sensitive
    (Sample.request (Some Sample.png) None (Some "socks")) Sample.w0
  = check_compliance Sample.name_sensitive
      (with_name (Some "None")
                 (Sample.request (Some Sample.png) None (Some "socks")))
      Sample.w0
  /\ contains_blacklisted_word
       (combined_text (Sample.request (Some Sample.png) None (Some "socks")))
     = contains_blacklisted_word
         (combined_text
            (with_name (Some "")
                       (Sample.request (Some Sample.png) None (Some "socks")))).
Proof.
  apply (absent_name_reads_None Sample.name_sensitive
           (Sample.request (Some Sample.png) None (Some "socks")) Sample.w0).
  reflexivity.
Defined.

(** C7 as the specification words it fails: without a name field the
    prompt ends with "Description: None socks", with the name "" it ends
    with "Description:  socks"; the calls made differ, and a model that
    reads the prompt gives the two requests different responses. *)
Lemma absent_name_claim_fails :
  List.last (build_prompt None (Some "socks") {| uri := "files/abc" |}) (PartText "")
  = PartText "Description: None socks"
  /\ List.last (build_prompt (Some "") (Some "socks") {| uri := "files/abc" |}) (PartText "")
     = PartText "Description:  socks"
  /\ calls (snd (check_compliance Sample.name_sensitive
                   (Sample.request (Some Sample.png) None (Some "socks"))
                   Sample.w0))
     <> calls (snd (check_compliance Sample.name_sensitive
                      (Sample.request (Some Sample.png) (Some "") (Some "socks"))
                      Sample.w0))
  /\ fst (check_compliance Sample.name_sensitive
            (Sample.request (Some Sample.png) None (Some "socks")) Sample.w0)
     = Ok {| body := PInt 42; status := 200 |}
  /\ fst (check_compliance Sample.name_sensitive
            (Sample.request (Some Sample.png) (Some "") (Some "socks")) Sample.w0)
     = Ok {| body := PList [PInt 1; PInt 2]; status := 200 |}.
Proof.
  repeat split; try (vm_compute; reflexivity).
  vm_compute. discriminate.
Qed.

(** ** Outcomes *)

Lemma append_nonempty (a s : string) : s <> "" -> a ++ s <> "".
Proof. destruct a; cbn; [tauto | discriminate]. Qed.

Lemma rating_label_nonempty (rating : SafetyRating) : rating_label rating <> "".
Proof. unfold rating_label. apply append_nonempty. discriminate. Qed.

Lemma join_nonempty (sep x : string) (l : list string) :
  x <> "" -> PyStr.join sep (x :: l) <> "".
Proof.
  intros Hx. destruct l as [|y l]; cbn; [assumption|].
  destruct x; [contradiction | discriminate].
Qed.

Lemma safety_verdict_outcome (c : Candidate) :
  exists o, result_of (safety_verdict c) = Some o /\ message_nonempty o.
Proof.
  unfold safety_verdict.
  destruct (List.filter _ _) as [|x l].
  - exists Compliant. split; [reflexivity | exact I].
  - eexists. split; [reflexivity|]. cbn [message_nonempty map].
    apply join_nonempty, rating_label_nonempty.
Qed.

Lemma truthy_photo (image : option FileStorage) :
  image_truthy image = true -> exists img, image = Some img.
Proof. destruct image as [img|]; [eauto | discriminate]. Qed.

(** C8 (as amended).  On every request path on which creating the
    temporary file and saving the image into it do not raise (lines 81-83,
    reached only after the denylist and validation), the handler returns
    exactly one response and does not raise.  That response is either the
    parsed answer of the model passed on unchanged, about which nothing
    more is guaranteed, or it reads as one of Compliant, NonCompliant and
    RequestError, and then its reason or message is not empty. *)
Theorem handler_outcomes
        (ext : Externals) (request : Request) (w : World) :
  (forall img, files_photo request = Some img ->
               reaches_classification request = true ->
               save_succeeds ext img w) ->
  exists resp w',
    check_compliance ext request w = (Ok resp, w')
    /\ ((exists t v, json_loads ext (PyStr.strip t) = Ok v /\ resp = jsonify v)
        \/ (exists o, result_of resp = Some o /\ message_nonempty o)).
Proof.
  intros Hsaved.
  destruct (contains_blacklisted_word (combined_text request)) eqn:Hdeny.
  { rewrite (run_denylisted ext request w Hdeny).
    eexists. eexists. split; [reflexivity|]. right.
    eexists. split; [reflexivity|]. cbn. discriminate. }
  destruct (image_truthy (files_photo request)) eqn:Hphoto.
  2:{ rewrite (run_required ext request w Hdeny (or_introl Hphoto)).
      eexists. eexists. split; [reflexivity|]. right.
      eexists. split; [reflexivity|]. cbn. discriminate. }
  destruct (PyStr.truthy (form_description request)) eqn:Hdesc.
  2:{ rewrite (run_required ext request w Hdeny (or_intror Hdesc)).
      eexists. eexists. split; [reflexivity|]. right.
      eexists. split; [reflexivity|]. cbn. discriminate. }
  destruct (truthy_photo _ Hphoto) as [img Himg].
  destruct (existsb (String.eqb (mimetype img)) supported_mimetypes) eqn:Hmime.
  2:{ rewrite (run_unsupported ext request w img Hdeny Himg Hphoto Hdesc Hmime).
      eexists. eexists. split; [reflexivity|]. right.
      eexists. split; [reflexivity|]. cbn. discriminate. }
  assert (Hreach : reaches_classification request = true).
  { unfold reaches_classification. now rewrite Hdeny, Hphoto, Hdesc, Himg, Hmime. }
  rewrite (run_classification ext request img w Hreach Himg
                              (Hsaved img Himg Hreach)).
  eexists. eexists. split; [reflexivity|].
  destruct (fst (classification ext request img w)) as [resp|e] eqn:Hrun.
  - destruct (classification_returns ext request img w resp Hrun)
      as [[c ->]|[->|[t [v [Hload ->]]]]].
    + right. apply safety_verdict_outcome.
    + right. eexists. split; [reflexivity|]. cbn. discriminate.
    + left. now exists t, v.
  - right. eexists. split; [reflexivity|]. cbn. discriminate.
Qed.

Lemma handler_outcomes_witness :
  exists resp w',
    check_compliance (Sample.serving (Ok (Sample.answered "Sure! It is fine.")))
      (Sample.request (Some Sample.png) None (Some "socks")) Sample.w0
    = (Ok resp, w')
    /\ ((exists t v, json_loads (Sample.serving (Ok (Sample.answered "Sure! It is fine.")))
                                (PyStr.strip t) = Ok v
                     /\ resp = jsonify v)
        \/ (exists o, result_of resp = Some o /\ message_nonempty o)).
Proof.
  apply (handler_outcomes
           (Sample.serving (Ok (Sample.answered "Sure! It is fine.")))
           (Sample.request (Some Sample.png) None (Some "socks")) Sample.w0).
  intros img [= <-] _. vm_compute. reflexivity.
Defined.

(** C8 as the specification words it fails three times.  On answers passed
    through from the model: the answer [{"compliant": true, "reason": ""}]
    reaches the caller with an empty reason, and the answer [[1, 2]]
    reaches the caller although it is none of the three outcomes.  And
    before the [try]: a photo whose extension is 301 characters long passes
    validation, the temporary file cannot be created, and the handler
    raises instead of returning a response. *)
Lemma outcome_claim_fails :
  (fst (check_compliance
          (Sample.serving (Ok (Sample.answered Sample.compliant_empty_reason_text)))
          (Sample.request (Some Sample.png) None (Some "socks")) Sample.w0)
   = Ok {| body := PDict [("compliant", PBool true); ("reason", PStr "")];
           status := 200 |}
   /\ In "" (message_strings
               (PDict [("compliant", PBool true); ("reason", PStr "")])))
  /\
  (fst (check_compliance
          (Sample.serving (Ok (Sample.answered "[1, 2]")))
          (Sample.request (Some Sample.png) None (Some "socks")) Sample.w0)
   = Ok {| body := PList [PInt 1; PInt 2]; status := 200 |}
   /\ result_of {| body := PList [PInt 1; PInt 2]; status := 200 |} = None)
  /\
  (reaches_classification
     (Sample.request (Some Sample.long_png) None (Some "socks")) = true
   /\ String.length (Sample.posix_splitext_ext (filename Sample.long_png)) = 301
   /\ fst (check_compliance
             (Sample.serving (Ok (Sample.answered "[1, 2]")))
             (Sample.request (Some Sample.long_png) None (Some "socks")) Sample.w0)
      = Raise (OtherError "OSError")).
Proof.
  repeat split; try (vm_compute; reflexivity).
  cbn. now left.
Qed.

(** ** More on the denylist matcher *)

Lemma lower_append (s t : string) :
  PyStr.lower (s ++ t) = PyStr.lower s ++ PyStr.lower t.
Proof.
  induction s as [|c s IH]; [reflexivity|].
  change (String c s ++ t) with (String c (s ++ t)).
  cbn [PyStr.lower]. now rewrite IH.
Qed.

Lemma append_assoc (a b c : string) : (a ++ b) ++ c = a ++ (b ++ c).
Proof.
  induction a as [|x a IH]; [reflexivity|].
  change ((String x a ++ b) ++ c) with (String x ((a ++ b) ++ c)).
  now rewrite IH.
Qed.

Lemma startswith_spec (w s : string) :
  PyStr.startswith w s = true <-> exists post, s = w ++ post.
Proof.
  revert s. induction w as [|a w IH]; intros s; cbn.
  - split; [intros _; now exists s | reflexivity].
  - destruct s as [|b s].
    + split; [discriminate | intros [post H]; discriminate H].
    + rewrite andb_true_iff, Ascii.eqb_eq, IH. split.
      * intros [-> [post ->]]. now exists post.
      * intros [post [= -> ->]]. split; [reflexivity | now exists post].
Qed.

Lemma str_in_spec (w s : string) :
  PyStr.str_in w s = true <-> exists pre post, s = pre ++ w ++ post.
Proof.
  induction s as [|c s IH].
  - cbn [PyStr.str_in]. rewrite orb_false_r, startswith_spec. split.
    + intros [post H]. now exists "", post.
    + intros [pre [post H]]. destruct pre; [now exists post | discriminate H].
  - cbn [PyStr.str_in]. rewrite orb_true_iff, startswith_spec, IH. split.
    + intros [[post H] | [pre [post H]]].
      * now exists "", post.
      * exists (String c pre), post. cbn. now rewrite H.
    + intros [pre [post H]]. destruct pre as [|d pre].
      * left. now exists post.
      * right. injection H as _ H. now exists pre, post.
Qed.

(** X1.  The matcher answers True exactly when some denylist entry occurs
    in the lowered text as a contiguous substring, at any position and
    whatever surrounds it. *)
Theorem blacklisted_iff_substring (input_string : string) :
  contains_blacklisted_word input_string = true <->
  exists word pre post,
    In word blacklist_words
    /\ PyStr.lower input_string = pre ++ word ++ post.
Proof.
  unfold contains_blacklisted_word. cbv zeta. rewrite existsb_exists. split.
  - intros [word [Hin Hocc]]. apply str_in_spec in Hocc as [pre [post H]].
    now exists word, pre, post.
  - intros [word [pre [post [Hin H]]]]. exists word. split; [assumption|].
    apply str_in_spec. now exists pre, post.
Qed.

(** X2.  A text the matcher flags stays flagged when more text is put
    before and after it: a term inside a longer word still triggers. *)
Theorem blacklisted_inside_longer_text (before s after : string) :
  contains_blacklisted_word s = true ->
  contains_blacklisted_word (before ++ s ++ after) = true.
Proof.
  unfold contains_blacklisted_word. cbv zeta. rewrite !existsb_exists.
  intros [word [Hin Hocc]]. exists word. split; [assumption|].
  apply str_in_spec in Hocc as [pre [post H]]. apply str_in_spec.
  exists (PyStr.lower before ++ pre), (post ++ PyStr.lower after).
  rewrite !lower_append, H, !append_assoc. reflexivity.
Qed.

Lemma blacklisted_inside_longer_text_witness :
  contains_blacklisted_word ("Es" ++ "sex" ++ " county map") = true.
Proof.
  apply (blacklisted_inside_longer_text "Es" "sex" " county map").
  vm_compute. reflexivity.
Defined.

Lemma startswith_before_separator (sep : ascii) (w a b : string) :
  has_char sep w = false ->
  PyStr.startswith w (a ++ String sep b) = PyStr.startswith w a.
Proof.
  intros Hsep. revert a. induction w as [|c w IH]; intros a; [reflexivity|].
  cbn in Hsep. apply orb_false_iff in Hsep as [Hc Hw].
  destruct a as [|d a].
  - change ("" ++ String sep b) with (String sep b).
    cbn [PyStr.startswith]. now rewrite Hc.
  - change (String d a ++ String sep b) with (String d (a ++ String sep b)).
    cbn [PyStr.startswith]. now rewrite (IH Hw).
Qed.

Lemma str_in_across_separator (sep : ascii) (w a b : string) :
  has_char sep w = false ->
  w <> "" ->
  PyStr.str_in w (a ++ String sep b) = PyStr.str_in w a || PyStr.str_in w b.
Proof.
  intros Hsep Hne. induction a as [|d a IH].
  - destruct w as [|c w]; [contradiction|].
    cbn in Hsep. apply orb_false_iff in Hsep as [Hc Hw].
    change ("" ++ String sep b) with (String sep b).
    cbn [PyStr.str_in PyStr.startswith]. now rewrite Hc.
  - change (String d a ++ String sep b) with (String d (a ++ String sep b)).
    cbn [PyStr.str_in]. rewrite IH.
    change (String d (a ++ String sep b)) with (String d a ++ String sep b).
    rewrite (startswith_before_separator sep w (String d a) b Hsep).
    now rewrite orb_assoc.
Qed.

Lemma existsb_orb {A} (f g h : A -> bool) (l : list A) :
  (forall x, In x l -> f x = g x || h x) ->
  existsb f l = existsb g l || existsb h l.
Proof.
  induction l as [|x l IH]; intros Hall; [reflexivity|].
  cbn. rewrite (Hall x (or_introl eq_refl)), IH.
  - destruct (g x), (h x), (existsb g l), (existsb h l); reflexivity.
  - intros y Hy. apply Hall. now right.
Qed.

Lemma entries_have_no_space (word : string) :
  In word blacklist_words -> has_char " " word = false /\ word <> "".
Proof.
  intros Hin.
  assert (Hall : forallb (fun w => negb (has_char " " w)
                                   && negb (String.eqb w ""))
                         blacklist_words = true) by (vm_compute; reflexivity).
  rewrite forallb_forall in Hall. specialize (Hall word Hin).
  apply andb_true_iff in Hall as [H1 H2].
  apply negb_true_iff in H1. apply negb_true_iff in H2.
  apply String.eqb_neq in H2. now split.
Qed.

Lemma blacklisted_fieldwise (a b : string) :
  contains_blacklisted_word (a ++ " " ++ b)
  = contains_blacklisted_word a || contains_blacklisted_word b.
Proof.
  unfold contains_blacklisted_word. cbv zeta.
  rewrite lower_append. change (PyStr.lower (" " ++ b)) with (String " " (PyStr.lower b)).
  apply existsb_orb. intros word Hin.
  destruct (entries_have_no_space word Hin) as [Hsp Hne].
  now apply str_in_across_separator.
Qed.

(** X3.  The verdict on [f"{name} {description}"] is the disjunction of the
    verdicts on the two rendered fields: no denylist entry can match across
    the separating space. *)
Theorem blacklisted_field_by_field (request : Request) :
  contains_blacklisted_word (combined_text request)
  = contains_blacklisted_word (PyStr.fmt (form_name request))
    || contains_blacklisted_word (PyStr.fmt (form_description request)).
Proof. unfold combined_text. apply blacklisted_fieldwise. Qed.

Lemma existsb_filter_out {A} (f keep : A -> bool) (l : list A) :
  (forall x, In x l -> keep x = false -> f x = false) ->
  existsb f l = existsb f (List.filter keep l).
Proof.
  induction l as [|x l IH]; intros Hdead; [reflexivity|].
  cbn. rewrite IH by (intros y Hy; apply Hdead; now right).
  destruct (keep x) eqn:Hk; [reflexivity|].
  now rewrite (Hdead x (or_introl eq_refl) Hk).
Qed.

(** X4.  The entry ["NSFW"] is dead: it is stored in upper case and
    searched in lowered text, so the matcher gives on every input the
    verdict it would give with that entry removed from the list. *)
Theorem NSFW_entry_is_dead (input_string : string) :
  contains_blacklisted_word input_string
  = existsb (fun word => PyStr.str_in word (PyStr.lower input_string))
            (List.filter (fun word => negb (String.eqb word "NSFW"))
                         blacklist_words)
  /\ PyStr.str_in "NSFW" (PyStr.lower input_string) = false.
Proof.
  split; [|apply NSFW_never_found].
  unfold contains_blacklisted_word. cbv zeta.
  apply existsb_filter_out. intros word _ Hk.
  apply negb_false_iff, String.eqb_eq in Hk. subst word.
  apply NSFW_never_found.
Qed.

(** ** More on the handler *)

Lemma reaches_has_photo (request : Request) :
  reaches_classification request = true ->
  exists img, files_photo request = Some img.
Proof.
  unfold reaches_classification.
  destruct (files_photo request) as [img|]; [eauto|].
  now rewrite andb_false_r.
Qed.

Lemma saved_calls (ext : Externals) (img : FileStorage) (w : World) :
  calls (saved ext img w) = calls w.
Proof.
  unfold saved, save_to_temp. cbv zeta.
  destruct (temp_create ext _); [reflexivity|].
  destruct (image_save ext _ img) as [[e written]|]; reflexivity.
Qed.

(** Lines 81-83 write to the temporary path only. *)
Lemma saved_frame (ext : Externals) (img : FileStorage) (w : World)
      (path : string) :
  path <> temp_path ext img w ->
  fs (saved ext img w) !! path = fs w !! path.
Proof.
  intros Hne. unfold saved, save_to_temp. fold (temp_path ext img w). cbv zeta.
  destruct (temp_create ext _); [reflexivity|].
  destruct (image_save ext _ img) as [[e written]|]; cbn;
    rewrite !lookup_insert_ne by congruence; reflexivity.
Qed.

(** The four ways through the handler. *)
Lemma handler_cases (ext : Externals) (request : Request) (w : World) :
  (contains_blacklisted_word (combined_text request) = true
   /\ reaches_classification request = false
   /\ check_compliance ext request w = (Ok (jsonify generic_refusal), w))
  \/ (contains_blacklisted_word (combined_text request) = false
      /\ reaches_classification request = false
      /\ exists message,
          check_compliance ext request w
          = (Ok (with_status (jsonify (error_body message)) 400), w))
  \/ (exists img e,
         files_photo request = Some img
         /\ reaches_classification request = true
         /\ save_raises ext img w = Some e
         /\ check_compliance ext request w = (Raise e, saved ext img w))
  \/ (exists img,
         files_photo request = Some img
         /\ reaches_classification request = true
         /\ save_succeeds ext img w
         /\ check_compliance ext request w =
              (Ok (match fst (classification ext request img w) with
                   | Ok r => r
                   | Raise _ => jsonify generic_refusal
                   end),
               {| fs := delete (temp_path ext img w) (fs w);
                  calls := calls (snd (classification ext request img w)) |})).
Proof.
  destruct (contains_blacklisted_word (combined_text request)) eqn:Hdeny.
  { left. split; [reflexivity|]. split.
    - unfold reaches_classification. now rewrite Hdeny.
    - now apply run_denylisted. }
  right.
  destruct (image_truthy (files_photo request)) eqn:Hphoto.
  2:{ left. split; [reflexivity|]. split.
      - unfold reaches_classification. now rewrite Hdeny, Hphoto.
      - eexists. apply run_required; [assumption | now left]. }
  destruct (PyStr.truthy (form_description request)) eqn:Hdesc.
  2:{ left. split; [reflexivity|]. split.
      - unfold reaches_classification. now rewrite Hdeny, Hphoto, Hdesc.
      - eexists. apply run_required; [assumption | now right]. }
  destruct (truthy_photo _ Hphoto) as [img Himg].
  destruct (existsb (String.eqb (mimetype img)) supported_mimetypes) eqn:Hmime.
  2:{ left. split; [reflexivity|]. split.
      - unfold reaches_classification. now rewrite Hdeny, Hphoto, Hdesc, Himg, Hmime.
      - eexists. now apply (run_unsupported ext request w img). }
  right.
  assert (Hreach : reaches_classification request = true).
  { unfold reaches_classification. now rewrite Hdeny, Hphoto, Hdesc, Himg, Hmime. }
  destruct (save_raises ext img w) as [e|] eqn:Hsave.
  - left. exists img, e. repeat (split; [assumption|]).
    rewrite (run_classifies ext request w img Hreach Himg).
    destruct (save_fails ext img w e Hsave) as [Hfst _].
    unfold saved. destruct (save_to_temp ext img w) as [[p|e'] w1];
      cbn in Hfst; [discriminate | now injection Hfst as ->].
  - right. exists img. repeat (split; [assumption|]).
    now apply run_classification.
Qed.

Lemma safety_verdict_status (c : Candidate) : status (safety_verdict c) = 200%Z.
Proof. unfold safety_verdict. now destruct (List.filter _ _). Qed.

Lemma classification_status
      (ext : Externals) (request : Request) (img : FileStorage) (w : World)
      (resp : Response) :
  fst (classification ext request img w) = Ok resp -> status resp = 200%Z.
Proof.
  intros H. destruct (classification_returns ext request img w resp H)
    as [[c ->]|[->|[t [v [_ ->]]]]]; [apply safety_verdict_status | reflexivity..].
Qed.

(** X5.  Whenever the handler returns a response its status is 200 or 400
    and nothing else, and it is 400 exactly when the request passes the
    denylist and then fails validation: no failure of the upload, of the
    model or of the parsing shows as another status.  The handler raises
    only when, for a request that passed validation, creating the temporary
    file or saving the image into it raises, and it raises that very
    exception. *)
Theorem status_is_200_or_400
        (ext : Externals) (request : Request) (w : World) :
  match fst (check_compliance ext request w) with
  | Ok resp =>
      (status resp = 200%Z \/ status resp = 400%Z)
      /\ (status resp = 400%Z <->
          contains_blacklisted_word (combined_text request) = false
          /\ reaches_classification request = false)
  | Raise e =>
      exists img,
        files_photo request = Some img
        /\ reaches_classification request = true
        /\ save_raises ext img w = Some e
  end.
Proof.
  destruct (handler_cases ext request w)
    as [[Hd [Hr ->]] | [[Hd [Hr [message ->]]]
        | [[img [e [Himg [Hr [Hsave ->]]]]] | [img [Himg [Hr [Hsave ->]]]]]]];
    cbn [fst].
  - split; [now left|]. cbn [status jsonify]. rewrite Hd.
    split; [discriminate | intros [? _]; discriminate].
  - split; [now right|]. cbn [status jsonify with_status]. now rewrite Hd, Hr.
  - now exists img.
  - assert (Hs : status (match fst (classification ext request img w) with
                         | Ok r => r
                         | Raise _ => jsonify generic_refusal
                         end) = 200%Z).
    { destruct (fst (classification ext request img w)) as [r|e] eqn:Hrun;
        [now apply (classification_status ext request img w) | reflexivity]. }
    rewrite Hs, Hr. split; [now left|].
    split; [discriminate | intros [_ ?]; discriminate].
Qed.

Lemma classification_calls
      (ext : Externals) (request : Request) (img : FileStorage) (w : World) :
  save_succeeds ext img w ->
  calls (snd (classification ext request img w))
  = (calls w
       ++ CallUpload (temp_path ext img w)
          :: match upload_file ext (temp_path ext img w) (stream img) with
             | Ok myfile =>
                 [CallGenerate (build_prompt (form_name request)
                                             (form_description request) myfile)]
             | Raise _ => []
             end)%list.
Proof.
  intros Hsave.
  unfold classification. rewrite classify_steps. cbv zeta.
  rewrite (saved_file ext img w Hsave), saved_calls.
  destruct (upload_file ext _ _) as [myfile|e]; [|reflexivity].
  assert (Hall : forall (o : outcome Response) ,
             calls (snd (o, {| fs := fs (saved ext img w);
                               calls := ((calls w ++ [CallUpload (temp_path ext img w)])
                                           ++ [CallGenerate
                                                 (build_prompt (form_name request)
                                                    (form_description request) myfile)])%list |}))
             = (calls w ++ [CallUpload (temp_path ext img w);
                            CallGenerate (build_prompt (form_name request)
                                            (form_description request) myfile)])%list).
  { intros o. cbn. now rewrite <- app_assoc. }
  destruct (generate_content ext _) as [r|e]; [|apply Hall].
  destruct (text r) as [t|e]; [|apply Hall].
  destruct (candidates r) as [|c0 rest]; [apply Hall|].
  destruct (String.eqb _ "SAFETY"); [apply Hall|].
  destruct (json_loads ext _) as [v|e]; [apply Hall|].
  destruct (is_JSONDecodeError e); apply Hall.
Qed.

(** X6.  The calls to the external service are appended to the trace and
    follow one pattern: none when the request is stopped by the denylist or
    by validation, or when creating or saving the temporary file raises;
    otherwise one upload of the temporary file, followed by one model call
    exactly when the upload returned a handle.  There is never a second
    upload, a retry, or a model call without an upload. *)
Theorem call_discipline
        (ext : Externals) (request : Request) (w : World) :
  calls (snd (check_compliance ext request w))
  = (calls w ++ expected_calls ext request w)%list
  /\ length (expected_calls ext request w) <= 2.
Proof.
  split.
  - unfold expected_calls.
    destruct (handler_cases ext request w)
      as [[Hd [Hr ->]] | [[Hd [Hr [message ->]]]
          | [[img [e [Himg [Hr [Hsave ->]]]]] | [img [Himg [Hr [Hsave ->]]]]]]].
    + rewrite Hr. cbn. destruct (files_photo request); now rewrite app_nil_r.
    + rewrite Hr. cbn. destruct (files_photo request); now rewrite app_nil_r.
    + rewrite Himg, Hr, Hsave. cbn [snd]. now rewrite saved_calls, app_nil_r.
    + rewrite Himg, Hr. unfold save_succeeds in Hsave. rewrite Hsave.
      cbn [snd calls]. now apply classification_calls.
  - unfold expected_calls. destruct (files_photo request) as [img|]; [|cbn; lia].
    destruct (reaches_classification request); [|cbn; lia].
    destruct (save_raises ext img w); [cbn; lia|].
    destruct (upload_file ext _ _); cbn; lia.
Qed.

(** X7.  When the name picked for the temporary file is not the path of an
    existing file, and creating that file and saving the image into it do
    not raise, the handler leaves the local file system exactly as it found
    it, whatever happens in the [try]. *)
Theorem file_system_restored
        (ext : Externals) (request : Request) (w : World) :
  (forall img, files_photo request = Some img ->
               fs w !! temp_path ext img w = None) ->
  (forall img, files_photo request = Some img ->
               reaches_classification request = true ->
               save_succeeds ext img w) ->
  fs (snd (check_compliance ext request w)) = fs w.
Proof.
  intros Hfresh Hsaved.
  destruct (handler_cases ext request w)
    as [[Hd [Hr ->]] | [[Hd [Hr [message ->]]]
        | [[img [e [Himg [Hr [Hsave _]]]]] | [img [Himg [Hr [Hsave ->]]]]]]];
    [reflexivity | reflexivity | |].
  - specialize (Hsaved img Himg Hr). unfold save_succeeds in Hsaved. congruence.
  - cbn [snd fs]. apply delete_id. now apply Hfresh.
Qed.

Lemma file_system_restored_witness :
  fs (snd (check_compliance (Sample.serving (Ok (Sample.answered "42")))
             (Sample.request (Some Sample.png) None (Some "socks"))
             Sample.w0))
  = fs Sample.w0.
Proof.
  apply (file_system_restored (Sample.serving (Ok (Sample.answered "42")))
           (Sample.request (Some Sample.png) None (Some "socks")) Sample.w0).
  - intros img _. apply lookup_empty.
  - intros img [= <-] _. vm_compute. reflexivity.
Defined.

(** X8.  A file other than the temporary one is never created, changed or
    removed by the handler. *)
Theorem other_files_untouched
        (ext : Externals) (request : Request) (w : World) (path : string) :
  (forall img, files_photo request = Some img ->
               path <> temp_path ext img w) ->
  fs (snd (check_compliance ext request w)) !! path = fs w !! path.
Proof.
  intros Hother.
  destruct (handler_cases ext request w)
    as [[Hd [Hr ->]] | [[Hd [Hr [message ->]]]
        | [[img [e [Himg [Hr [Hsave ->]]]]] | [img [Himg [Hr [Hsave ->]]]]]]];
    [reflexivity | reflexivity | |].
  - cbn [snd]. apply saved_frame. now apply Hother.
  - cbn [snd fs]. apply lookup_delete_ne. intros Heq. now apply (Hother img Himg).
Qed.

Lemma other_files_untouched_witness :
  fs (snd (check_compliance (Sample.serving (Ok (Sample.answered "42")))
             (Sample.request (Some Sample.png) None (Some "socks"))
             {| fs := {[ "/etc/hosts" := "localhost" ]}; calls := [] |}))
    !! "/etc/hosts"
  = fs {| fs := {[ "/etc/hosts" := "localhost" ]}; calls := [] |} !! "/etc/hosts".
Proof.
  apply (other_files_untouched (Sample.serving (Ok (Sample.answered "42")))
           (Sample.request (Some Sample.png) None (Some "socks"))
           {| fs := {[ "/etc/hosts" := "localhost" ]}; calls := [] |}
           "/etc/hosts").
  intros img [= <-]. vm_compute. discriminate.
Defined.

Lemma classification_ok_replied
      (ext : Externals) (request : Request) (img : FileStorage) (w : World)
      (resp : Response) :
  save_succeeds ext img w ->
  fst (classification ext request img w) = Ok resp ->
  exists r t, model_replied ext request img w r /\ text r = Ok t.
Proof.
  intros Hsave.
  unfold classification. rewrite classify_steps. cbv zeta.
  rewrite (saved_file ext img w Hsave).
  destruct (upload_file ext _ _) as [myfile|e] eqn:Hup; [|discriminate].
  destruct (generate_content ext _) as [r|e] eqn:Hgen; [|discriminate].
  destruct (text r) as [t|e] eqn:Htext; [|discriminate].
  intros _. exists r, t. split; [|assumption].
  exists myfile. now split.
Qed.

(** X9.  The handler fails closed: a body whose ["compliant"] entry is
    [True] is returned only for a request that reached the classifier, whose
    upload succeeded and for which the model produced a reply with readable
    text.  The denylist, the validation errors and every failure answer
    something else. *)
Theorem compliant_needs_model_reply
        (ext : Externals) (request : Request) (w : World) (resp : Response) :
  fst (check_compliance ext request w) = Ok resp ->
  says_compliant (body resp) = true ->
  exists img r t,
    files_photo request = Some img
    /\ reaches_classification request = true
    /\ model_replied ext request img w r
    /\ text r = Ok t.
Proof.
  intros Hrun Hsays.
  destruct (handler_cases ext request w)
    as [[Hd [Hr Heq]] | [[Hd [Hr [message Heq]]]
        | [[img [e [Himg [Hr [Hsave Heq]]]]] | [img [Himg [Hr [Hsave Heq]]]]]]];
    rewrite Heq in Hrun; cbn [fst] in Hrun.
  - injection Hrun as <-. discriminate Hsays.
  - injection Hrun as <-. discriminate Hsays.
  - discriminate Hrun.
  - destruct (fst (classification ext request img w)) as [r0|e] eqn:Hcls.
    + destruct (classification_ok_replied ext request img w r0 Hsave Hcls)
        as [r [t [Hreply Htext]]].
      now exists img, r, t.
    + injection Hrun as <-. discriminate Hsays.
Qed.

Lemma compliant_needs_model_reply_witness :
  exists img r t,
    files_photo (Sample.request (Some Sample.png) None (Some "socks")) = Some img
    /\ reaches_classification
         (Sample.request (Some Sample.png) None (Some "socks")) = true
    /\ model_replied
         (Sample.serving (Ok (Sample.answered Sample.compliant_empty_reason_text)))
         (Sample.request (Some Sample.png) None (Some "socks"))
         img Sample.w0 r
    /\ text r = Ok t.
Proof.
  apply (compliant_needs_model_reply
           (Sample.serving (Ok (Sample.answered Sample.compliant_empty_reason_text)))
           (Sample.request (Some Sample.png) None (Some "socks"))
           Sample.w0
           {| body := PDict [("compliant", PBool true); ("reason", PStr "")];
              status := 200 |}).
  - vm_compute. reflexivity.
  - reflexivity.
Defined.

(** X16.  When [image.save] raises, that exception leaves the handler: no
    response is returned, nothing is uploaded and the model is not called,
    and the temporary file, created with [delete=False] before the [try],
    stays on disk holding what had been written. *)
Theorem failed_save_leaves_file
        (ext : Externals) (request : Request) (w : World) (img : FileStorage)
        (e : exn) (written : string) :
  reaches_classification request = true ->
  files_photo request = Some img ->
  temp_create ext (temp_path ext img w) = None ->
  image_save ext (temp_path ext img w) img = Some (e, written) ->
  fst (check_compliance ext request w) = Raise e
  /\ calls (snd (check_compliance ext request w)) = calls w
  /\ fs (snd (check_compliance ext request w)) !! temp_path ext img w
     = Some written.
Proof.
  intros Hreach Himg Hcreate Hwrite.
  rewrite (run_classifies ext request w img Hreach Himg).
  unfold save_to_temp. fold (temp_path ext img w). cbv zeta.
  rewrite Hcreate, Hwrite. cbn. repeat split. apply lookup_insert_eq.
Qed.

Lemma failed_save_leaves_file_witness :
  fst (check_compliance Sample.disk_full
         (Sample.request (Some Sample.png) None (Some "socks")) Sample.w0)
  = Raise (OtherError "OSError")
  /\ calls (snd (check_compliance Sample.disk_full
                   (Sample.request (Some Sample.png) None (Some "socks"))
                   Sample.w0)) = calls Sample.w0
  /\ fs (snd (check_compliance Sample.disk_full
                (Sample.request (Some Sample.png) None (Some "socks"))
                Sample.w0))
       !! temp_path Sample.disk_full Sample.png Sample.w0
     = Some "PNG".
Proof.
  apply (failed_save_leaves_file Sample.disk_full
           (Sample.request (Some Sample.png) None (Some "socks")) Sample.w0
           Sample.png (OtherError "OSError") "PNG").
  - vm_compute. reflexivity.
  - reflexivity.
  - vm_compute. reflexivity.
  - vm_compute. reflexivity.
Defined.

(** X10.  A denylisted term in the name alone, or in the description alone,
    stops the request at once with the generic refusal, whatever the photo
    and the other field are, and nothing is written or called. *)
Theorem either_field_short_circuits
        (ext : Externals) (request : Request) (w : World) :
  contains_blacklisted_word (PyStr.fmt (form_name request)) = true
  \/ contains_blacklisted_word (PyStr.fmt (form_description request)) = true ->
  check_compliance ext request w = (Ok (jsonify generic_refusal), w).
Proof.
  intros Hfield. apply run_denylisted. unfold combined_text.
  rewrite blacklisted_fieldwise. apply orb_true_iff. exact Hfield.
Qed.

Lemma either_field_short_circuits_witness :
  check_compliance Sample.offline
    (Sample.request None (Some "Vape pen") None) Sample.w0
  = (Ok (jsonify generic_refusal), Sample.w0).
Proof.
  apply (either_field_short_circuits Sample.offline
           (Sample.request None (Some "Vape pen") None) Sample.w0).
  left. vm_compute. reflexivity.
Defined.

(** X11.  A request without a description field is never classified: its
    missing field is rendered as "None", which matches no entry, so the
    answer is the generic refusal when the name is denylisted and the 400
    "required" error otherwise; the world is untouched. *)
Theorem missing_description_outcome
        (ext : Externals) (request : Request) (w : World) :
  form_description request = None ->
  check_compliance ext request w =
    (Ok (if contains_blacklisted_word (PyStr.fmt (form_name request))
         then jsonify generic_refusal
         else with_status
                (jsonify (error_body "Image and description are required")) 400),
     w).
Proof.
  intros Hnone.
  assert (Htext : contains_blacklisted_word (combined_text request)
                  = contains_blacklisted_word (PyStr.fmt (form_name request))).
  { unfold combined_text. rewrite blacklisted_fieldwise, Hnone.
    change (contains_blacklisted_word (PyStr.fmt None)) with false.
    apply orb_false_r. }
  destruct (contains_blacklisted_word (PyStr.fmt (form_name request))) eqn:Hname.
  - now apply run_denylisted.
  - apply run_required; [assumption|]. right. now rewrite Hnone.
Qed.

Lemma missing_description_outcome_witness :
  check_compliance Sample.offline
    (Sample.request (Some Sample.png) (Some "socks") None) Sample.w0 =
    (Ok (if contains_blacklisted_word
              (PyStr.fmt (form_name (Sample.request (Some Sample.png)
                                                    (Some "socks") None)))
         then jsonify generic_refusal
         else with_status
                (jsonify (error_body "Image and description are required")) 400),
     Sample.w0).
Proof.
  apply (missing_description_outcome Sample.offline
           (Sample.request (Some Sample.png) (Some "socks") None) Sample.w0).
  reflexivity.
Defined.

(** ** More on the safety-filter branch *)

Lemma slice_from_prefix (pre x : string) :
  PyStr.slice_from (String.length pre) (pre ++ x) = x.
Proof.
  induction pre as [|c pre IH]; [now destruct x|].
  change (String c pre ++ x) with (String c (pre ++ x)). cbn. exact IH.
Qed.

Lemma slice_from_short (n : nat) (s : string) :
  String.length s <= n -> PyStr.slice_from n s = "".
Proof.
  revert s. induction n as [|n IH]; intros s Hlen.
  - destruct s; [reflexivity | cbn in Hlen; lia].
  - destruct s as [|c s]; [reflexivity|]. cbn. apply IH. cbn in Hlen. lia.
Qed.

(** X12.  The label of a rating drops the first fourteen characters of the
    category name whatever they are, not only ["HARM_CATEGORY_"]; a
    category name of at most fourteen characters leaves the bare
    [" (PROBABILITY)"]. *)
Theorem rating_label_truncates (rating : SafetyRating) :
  (forall pre x,
      Enum.name (category rating) = pre ++ x ->
      String.length pre = 14 ->
      rating_label rating = x ++ " (" ++ Enum.name (probability rating) ++ ")")
  /\ (String.length (Enum.name (category rating)) <= 14 ->
      rating_label rating = " (" ++ Enum.name (probability rating) ++ ")").
Proof.
  unfold rating_label. split.
  - intros pre x -> Hlen. rewrite <- Hlen. now rewrite slice_from_prefix.
  - intros Hlen. now rewrite (slice_from_short 14 _ Hlen).
Qed.

Lemma rating_label_truncates_witness :
  rating_label {| category := {| Enum.name := "SAFETY_CATEGORY_X"; Enum.number := 9 |};
                  probability := Sample.high |}
  = "Y_X" ++ " (" ++ "HIGH" ++ ")"
  /\ rating_label {| category := {| Enum.name := "UNSPECIFIED"; Enum.number := 0 |};
                     probability := Sample.high |}
     = " (" ++ "HIGH" ++ ")".
Proof.
  split.
  - apply (proj1 (rating_label_truncates
                    {| category := {| Enum.name := "SAFETY_CATEGORY_X"; Enum.number := 9 |};
                       probability := Sample.high |})
                 "SAFETY_CATEGOR" "Y_X"); reflexivity.
  - apply (proj2 (rating_label_truncates
                    {| category := {| Enum.name := "UNSPECIFIED"; Enum.number := 0 |};
                       probability := Sample.high |})).
    cbn. lia.
Defined.

(** X13.  The safety branch answers [{"compliant": true}] exactly when
    every rating of the candidate is NEGLIGIBLE, which includes a candidate
    with no rating at all. *)
Theorem safety_verdict_compliant_iff (c : Candidate) :
  safety_verdict c = {| body := PDict [("compliant", PBool true)]; status := 200 |}
  <-> (forall rating, In rating (safety_ratings c) ->
                      Enum.name (probability rating) = "NEGLIGIBLE").
Proof.
  split; [|apply safety_verdict_all_negligible].
  intros Hv rating Hin.
  destruct (String.eqb (Enum.name (probability rating)) "NEGLIGIBLE") eqn:Hp;
    [now apply String.eqb_eq in Hp|].
  apply String.eqb_neq in Hp.
  assert (Hnn : non_negligible c <> []).
  { intros Hnil. assert (H : In rating (non_negligible c))
      by (apply non_negligible_spec; now split).
    now rewrite Hnil in H. }
  rewrite (safety_verdict_flagged c Hnn) in Hv. discriminate Hv.
Qed.

Lemma append_empty_r (x : string) : x ++ "" = x.
Proof.
  induction x as [|c x IH]; [reflexivity|].
  change (String c x ++ "") with (String c (x ++ "")). now rewrite IH.
Qed.

Lemma join_contains (sep x : string) (l : list string) :
  In x l -> exists pre post, PyStr.join sep l = pre ++ x ++ post.
Proof.
  induction l as [|y l IH]; [contradiction|].
  intros [-> | Hin].
  - destruct l as [|z l].
    + exists "", "". change ("" ++ x ++ "") with (x ++ "").
      now rewrite append_empty_r.
    + exists "", (sep ++ PyStr.join sep (z :: l)). reflexivity.
  - destruct (IH Hin) as [pre [post Heq]].
    destruct l as [|z l]; [contradiction|].
    exists (y ++ sep ++ pre), post.
    change (PyStr.join sep (y :: z :: l)) with (y ++ sep ++ PyStr.join sep (z :: l)).
    rewrite Heq, !append_assoc. reflexivity.
Qed.

(** X14.  Every rating of the candidate that is not NEGLIGIBLE is named in
    the refusal: the safety branch answers non-compliant and the label of
    that rating occurs in the reason. *)
Theorem flagged_rating_is_named (c : Candidate) (rating : SafetyRating) :
  In rating (safety_ratings c) ->
  Enum.name (probability rating) <> "NEGLIGIBLE" ->
  exists reason,
    safety_verdict c
    = {| body := PDict [("compliant", PBool false); ("reason", PStr reason)];
         status := 200 |}
    /\ PyStr.str_in (rating_label rating) reason = true.
Proof.
  intros Hin Hp.
  assert (Hflag : In rating (non_negligible c))
    by (apply non_negligible_spec; now split).
  assert (Hnn : non_negligible c <> []) by (intros Hnil; now rewrite Hnil in Hflag).
  eexists. split; [apply (safety_verdict_flagged c Hnn)|].
  apply str_in_spec. apply join_contains. now apply in_map.
Qed.

Lemma flagged_rating_is_named_witness :
  exists reason,
    safety_verdict
      {| finish_reason := Sample.safety;
         safety_ratings := [ {| category := Sample.category_x;
                                probability := Sample.negligible |};
                             {| category := Sample.category_x;
                                probability := Sample.high |} ] |}
    = {| body := PDict [("compliant", PBool false); ("reason", PStr reason)];
         status := 200 |}
    /\ PyStr.str_in
         (rating_label {| category := Sample.category_x;
                          probability := Sample.high |}) reason = true.
Proof.
  apply (flagged_rating_is_named
           {| finish_reason := Sample.safety;
              safety_ratings := [ {| category := Sample.category_x;
                                     probability := Sample.negligible |};
                                  {| category := Sample.category_x;
                                     probability := Sample.high |} ] |}
           {| category := Sample.category_x; probability := Sample.high |}).
  - right. left. reflexivity.
  - cbn. discriminate.
Defined.

(** ** Whitespace around the model's text *)

Lemma lstrip_padding (a t : string) :
  all_space a = true -> PyStr.lstrip (a ++ t) = PyStr.lstrip t.
Proof.
  induction a as [|c a IH]; intros Hsp; [reflexivity|].
  cbn in Hsp. apply andb_true_iff in Hsp as [Hc Ha].
  change (String c a ++ t) with (String c (a ++ t)).
  cbn [PyStr.lstrip]. rewrite Hc. now apply IH.
Qed.

Lemma rstrip_only_spaces (b : string) :
  all_space b = true -> PyStr.rstrip b = "".
Proof.
  induction b as [|c b IH]; intros Hsp; [reflexivity|].
  cbn in Hsp. apply andb_true_iff in Hsp as [Hc Hb].
  cbn [PyStr.rstrip]. now rewrite (IH Hb), Hc.
Qed.

Lemma rstrip_padding (t b : string) :
  all_space b = true -> PyStr.rstrip (t ++ b) = PyStr.rstrip t.
Proof.
  intros Hsp. induction t as [|c t IH].
  - change ("" ++ b) with b. now rewrite rstrip_only_spaces.
  - change (String c t ++ b) with (String c (t ++ b)).
    cbn [PyStr.rstrip]. now rewrite IH.
Qed.

Lemma strip_padding (a t b : string) :
  all_space a = true -> all_space b = true ->
  PyStr.strip (a ++ t ++ b) = PyStr.strip t.
Proof.
  intros Ha Hb. unfold PyStr.strip. rewrite (lstrip_padding a _ Ha).
  induction t as [|c t IH].
  - change ("" ++ b) with b.
    assert (Hl : PyStr.lstrip b = "").
    { clear -Hb. induction b as [|d b IH]; [reflexivity|].
      cbn in Hb. apply andb_true_iff in Hb as [Hd Hb].
      cbn [PyStr.lstrip]. rewrite Hd. now apply IH. }
    now rewrite Hl.
  - change (String c t ++ b) with (String c (t ++ b)).
    cbn [PyStr.lstrip]. destruct (PyStr.is_space c); [exact IH|].
    change (String c (t ++ b)) with (String c t ++ b).
    now apply rstrip_padding.
Qed.

(** X15.  Whitespace before and after the model's text does not change the
    answer: the text is stripped before it is parsed, so a reply padded with
    characters that [str.strip()] removes (among the code points 0 to 255:
    9-13, 28-32, 133 and 160) is handled exactly like the bare reply. *)
Theorem answer_ignores_padding
        (ext : Externals) (before t after : string) (cs : list Candidate)
        (w : World) :
  all_space before = true ->
  all_space after = true ->
  parse_answer ext {| text := Ok (before ++ t ++ after); candidates := cs |} w
  = parse_answer ext {| text := Ok t; candidates := cs |} w.
Proof.
  intros Hb Ha. unfold parse_answer. unfold_monad. cbn [text].
  now rewrite (strip_padding before t after Hb Ha).
Qed.

Lemma answer_ignores_padding_witness :
  parse_answer (Sample.serving (Ok (Sample.answered "42")))
    {| text := Ok (String "160" " " ++ "[1, 2]" ++ String "009" (String "133" ""));
       candidates := [] |} Sample.w0
  = parse_answer (Sample.serving (Ok (Sample.answered "42")))
      {| text := Ok "[1, 2]"; candidates := [] |} Sample.w0.
Proof.
  apply (answer_ignores_padding (Sample.serving (Ok (Sample.answered "42")))
           (String "160" " ") "[1, 2]" (String "009" (String "133" "")) []
           Sample.w0); reflexivity.
Defined.
